(** * MovieChatBot: the retrieval loop of [src/chatbot.py]

    A shallow embedding of [MovieChatBot] (the class of [src/chatbot.py]):
    its instance fields, [restart], [save_chat_history],
    [generate_chat_anserw], [generate_cypher_query] and the interactive
    [chat] loop with its nested retrieval loop.

    What lies outside the repository is a parameter of the development:
    the language model behind [InferenceClient.chat_completion], the graph
    database behind [Neo4jGraph.query], Python's [ast.literal_eval], and the
    two prompt templates read from [prompts.yaml]; the class [Outside]
    collects them.  The model and the database are stateful and may answer
    the same request differently on two occasions, so they thread an
    abstract [World].  What the program prints is kept as the list of the
    arguments of [print]. *)

From Stdlib Require Import String Ascii List Bool Arith Lia ZArith.
Import ListNotations.
Local Open Scope string_scope.
Local Open Scope list_scope.

Set Implicit Arguments.

(** ** Python strings

    A [str] is modelled as a [string]: a sequence of code points below 256.
    The operations below are the ones [chat] applies to its strings. *)

Module Str.

(** [ch.isspace()] for the code points below 256. *)
Definition isspace (c : ascii) : bool :=
  let n := nat_of_ascii c in
  (Nat.leb 9 n && Nat.leb n 13) || (Nat.leb 28 n && Nat.leb n 32)
  || Nat.eqb n 133 || Nat.eqb n 160.

Fixpoint lstrip (s : string) : string :=
  match s with
  | EmptyString => EmptyString
  | String c r => if isspace c then lstrip r else s
  end.

Fixpoint rstrip (s : string) : string :=
  match s with
  | EmptyString => EmptyString
  | String c r =>
      match rstrip r with
      | EmptyString => if isspace c then EmptyString else String c EmptyString
      | r' => String c r'
      end
  end.

(** [s.strip()] *)
Definition strip (s : string) : string := rstrip (lstrip s).

(** [sub in s] *)
Fixpoint contains (sub s : string) : bool :=
  prefix sub s ||
  match s with
  | EmptyString => false
  | String _ r => contains sub r
  end.

(** [s.split(sep)] for a non-empty [sep]: a left-to-right scan that cuts
    at every occurrence of [sep] and resumes after it.  [skip] counts the
    characters of a matched separator still to be passed over, [cur] is
    the piece under construction, in reverse. *)
Fixpoint split_scan (sep : string) (skip : nat) (cur : list ascii)
         (s : string) : list string :=
  match s with
  | EmptyString => [string_of_list_ascii (rev cur)]
  | String c r =>
      match skip with
      | S k => split_scan sep k cur r
      | O =>
          if prefix sep s
          then string_of_list_ascii (rev cur)
                 :: split_scan sep (String.length sep - 1) [] r
          else split_scan sep 0 (c :: cur) r
      end
  end.

Definition split (sep s : string) : list string := split_scan sep 0 [] s.

(** [ch.lower()] for the code points below 256: the ASCII capitals and
    the Latin-1 capitals (U+00C0 to U+00DE, without the sign U+00D7). *)
Definition lower_char (c : ascii) : ascii :=
  let n := nat_of_ascii c in
  if (Nat.leb 65 n && Nat.leb n 90)
     || (Nat.leb 192 n && Nat.leb n 222 && negb (Nat.eqb n 215))
  then ascii_of_nat (n + 32) else c.

Fixpoint lower (s : string) : string :=
  match s with
  | EmptyString => EmptyString
  | String c r => String (lower_char c) (lower r)
  end.

(** [s[i]] for each index, as the one-character strings that iterating
    over a [str] yields. *)
Fixpoint chars (s : string) : list string :=
  match s with
  | EmptyString => []
  | String c r => String c EmptyString :: chars r
  end.

End Str.

(** ** Python values and exceptions *)

(** The values [ast.literal_eval] can produce: "strings, bytes, numbers,
    tuples, lists, dicts, sets, booleans, None and Ellipsis".  A set keeps
    its elements in the order iteration visits them, a dict its items in
    insertion order. *)
#[warnings="-register-all"]
Inductive PyVal : Type :=
| PyStr (s : string)
| PyBytes (b : list ascii)
| PyInt (z : Z)
| PyFloat (repr : string)
| PyComplex (repr : string)
| PyBool (b : bool)
| PyNone
| PyEllipsis
| PyTuple (items : list PyVal)
| PyList (items : list PyVal)
| PySet (items : list PyVal)
| PyDict (items : list (PyVal * PyVal)).

(** The exception classes that occur.  [SyntaxError] stands for the class
    and its subclasses ([IndentationError], [TabError]), which
    [except SyntaxError] catches alike; [OtherError] carries the class name
    of anything else a library raises. *)
Inductive PyExn : Type :=
| SyntaxError
| ValueError
| TypeError
| MemoryError
| RecursionError
| CypherSyntaxError
| EOFError
| OtherError (class_name : string).

Definition PyExn_eqb (a b : PyExn) : bool :=
  match a, b with
  | SyntaxError, SyntaxError => true
  | ValueError, ValueError => true
  | TypeError, TypeError => true
  | MemoryError, MemoryError => true
  | RecursionError, RecursionError => true
  | CypherSyntaxError, CypherSyntaxError => true
  | EOFError, EOFError => true
  | OtherError x, OtherError y => String.eqb x y
  | _, _ => false
  end.

(** [iter(v)]: the elements a [for] loop over [v] visits, or [TypeError]
    when [v] is not iterable. *)
Definition py_iter (v : PyVal) : list PyVal + PyExn :=
  match v with
  | PyStr s => inl (map PyStr (Str.chars s))
  | PyBytes b => inl (map (fun c => PyInt (Z.of_nat (nat_of_ascii c))) b)
  | PyTuple l | PyList l | PySet l => inl l
  | PyDict kvs => inl (map fst kvs)
  | PyInt _ | PyFloat _ | PyComplex _ | PyBool _ | PyNone | PyEllipsis =>
      inr TypeError
  end.

(** [prefix + v] for a [str] prefix: concatenation when [v] is a [str],
    [TypeError] otherwise. *)
Definition py_str_add (prefix : string) (v : PyVal) : PyVal + PyExn :=
  match v with
  | PyStr s => inl (PyStr (prefix ++ s))
  | _ => inr TypeError
  end.

Definition is_str (v : PyVal) : bool :=
  match v with PyStr _ => true | _ => false end.

(** ** The chatbot object *)

(** An entry of [_chat_history]: the dict [save_chat_history] appends for
    the user ([role], [content], [context]) or for the assistant ([role],
    [content]). *)
Inductive Turn : Type :=
| UserTurn (content : string) (context : list string)
| AssistantTurn (content : string).

(** The state variables of [MovieChatBot.__init__], without the leading
    underscore of the Python names. *)
Record MovieChatBot : Type := mkBot {
  chat_history : list Turn;       (* self._chat_history *)
  rag_question : string;          (* self._rag_question *)
  question : string;              (* self._question *)
  answer : string;                (* self._answer *)
  context : list string;          (* self._context *)
  previous_queries : list PyVal;  (* self._previous_queries *)
  used_queries : list PyVal       (* self._used_queries *)
}.

(** [__init__]: the state variables of a new object. *)
Definition init : MovieChatBot := mkBot [] "" "" "" [] [] [].

(** [restart] (lines 98-105). *)
Definition restart (self : MovieChatBot) : MovieChatBot :=
  mkBot [] "" "" "" [] [] [].

(** [save_chat_history] (lines 91-93).  The user entry holds the list
    object [self._context]; the next write to that field, in [restart] or
    at line 131, rebinds it to a new list, and nothing is appended in
    between, so the saved list is never changed afterwards and a copy
    models it. *)
Definition save_chat_history (self : MovieChatBot) : MovieChatBot :=
  mkBot (chat_history self
           ++ [UserTurn (question self) (context self);
               AssistantTurn (answer self)])
        (rag_question self) (question self) (answer self) (context self)
        (previous_queries self) (used_queries self).

Definition set_rag_question (v : string) (self : MovieChatBot) :=
  mkBot (chat_history self) v (question self) (answer self) (context self)
        (previous_queries self) (used_queries self).

Definition set_answer (v : string) (self : MovieChatBot) :=
  mkBot (chat_history self) (rag_question self) (question self) v
        (context self) (previous_queries self) (used_queries self).

(** Lines 130-133: the four assignments that open a new question. *)
Definition begin_question (user_q : string) (self : MovieChatBot) :=
  mkBot (chat_history self) (rag_question self) user_q (answer self)
        [] [] [].

(** [self._previous_queries.append(v)] *)
Definition append_previous (v : PyVal) (self : MovieChatBot) :=
  mkBot (chat_history self) (rag_question self) (question self) (answer self)
        (context self) (previous_queries self ++ [v]) (used_queries self).

(** [self._context.append(c)] followed by [self._used_queries.append(v)] *)
Definition append_used (c : string) (v : PyVal) (self : MovieChatBot) :=
  mkBot (chat_history self) (rag_question self) (question self) (answer self)
        (context self ++ [c]) (previous_queries self)
        (used_queries self ++ [v]).

(** ** Runs: the object, the outside world and what was observed *)

(** What the terminal saw: [print(s)], the prompt of [input(s)], and the
    screen clearing of [os.system]. *)
Inductive TermEvent : Type :=
| Printed (s : string)
| InputPrompt (s : string)
| ClearScreen.

(** One [chat_completion] request with its reply. *)
Record LlmCall : Type := mkLlmCall {
  system_prompt : string;
  user_prompt : string;
  reply : string
}.

(** One [self._graphDB.query(q)] with what came back: the [str(...)] of
    the rows, or the exception raised. *)
Record GraphCall : Type := mkGraphCall {
  submitted : PyVal;
  came_back : string + PyExn
}.

(** How a computation ends: it returns, it raises, or the fuel that bounds
    the rounds of the [while] loops ran out while it was still running. *)
Inductive Outcome (A : Type) : Type :=
| Returned (a : A)
| Raised (e : PyExn)
| Starved.
Arguments Raised {A} e.
Arguments Starved {A}.

(** The collaborators of the chatbot, which lie outside the repository.
    The model and the templates are taken to return a string; the graph
    and [literal_eval] may raise. *)
Class Outside : Type := {
  World : Type;

  (** [self._client.chat_completion(messages, max_tokens, temperature)]
      reduced to [response.choices[0].message["content"]]; its arguments
      are the system prompt and the user prompt. *)
  llm : World -> string -> string -> string * World;

  (** [str(self._graphDB.query(q))], or the exception [query] raises. *)
  graph_query : World -> PyVal -> (string + PyExn) * World;

  (** [ast.literal_eval(text)], or the exception it raises. *)
  literal_eval : string -> PyVal + PyExn;

  (** [self._base_template.invoke({question, context, chat_history})
      .to_string()] *)
  base_template : string -> list string -> list Turn -> string;

  (** [self._cypher_prompt_template.invoke({question, previous_queries,
      used_quries}).to_string()] *)
  cypher_prompt_template : string -> list PyVal -> list PyVal -> string
}.

Section Chat.

Context {E : Outside}.

Record Run : Type := mkRun {
  self : MovieChatBot;
  world : World;
  stdin : list string;
  terminal : list TermEvent;
  llm_log : list LlmCall;
  graph_log : list GraphCall
}.

(** Computations over a run.  The run is handed back in every case, so
    the state in which an exception left the object stays visible. *)
Definition M (A : Type) : Type := Run -> Outcome A * Run.

Definition ret {A} (a : A) : M A := fun r => (Returned a, r).

Definition bind {A B} (c : M A) (k : A -> M B) : M B :=
  fun r =>
    match c r with
    | (Returned a, r') => k a r'
    | (Raised e, r') => (Raised e, r')
    | (Starved, r') => (Starved, r')
    end.

Definition raise {A} (e : PyExn) : M A := fun r => (Raised e, r).

(** [try: body / except cls: handler] *)
Definition try_except {A} (body : M A) (cls : PyExn) (handler : M A) : M A :=
  fun r =>
    match body r with
    | (Raised e, r') =>
        if PyExn_eqb e cls then handler r' else (Raised e, r')
    | other => other
    end.

Definition lift {A} (x : A + PyExn) : M A :=
  match x with inl a => ret a | inr e => raise e end.

Definition get_self : M MovieChatBot := fun r => (Returned (self r), r).

Definition update (f : MovieChatBot -> MovieChatBot) : M unit :=
  fun r =>
    (Returned tt,
     mkRun (f (self r)) (world r) (stdin r) (terminal r) (llm_log r)
           (graph_log r)).

Definition emit (e : TermEvent) : M unit :=
  fun r =>
    (Returned tt,
     mkRun (self r) (world r) (stdin r) (terminal r ++ [e]) (llm_log r)
           (graph_log r)).

(** [print(s)] *)
Definition print (s : string) : M unit := emit (Printed s).

(** [input(prompt)]: the next line of standard input, [EOFError] at its
    end. *)
Definition input (prompt : string) : M string :=
  fun r =>
    let t := terminal r ++ [InputPrompt prompt] in
    match stdin r with
    | [] =>
        (Raised EOFError,
         mkRun (self r) (world r) [] t (llm_log r) (graph_log r))
    | line :: rest =>
        (Returned line,
         mkRun (self r) (world r) rest t (llm_log r) (graph_log r))
    end.

Local Notation "x <- c ;; k" := (bind c (fun x => k))
  (at level 61, c at next level, right associativity).
Local Notation "c ;; k" := (bind c (fun _ => k))
  (at level 61, right associativity).

(** The line feed of the Python literals. *)
Definition nl : string := String (ascii_of_nat 10) EmptyString.

(** The missing-data marker. *)
Definition NO_CONTEXT : string := "NO_CONTEXT".

Definition invalid_syntax_prefix : string := "Invalid syntax of this query: ".
Definition no_data_prefix : string := "No data generated for this query: ".

(** *** The methods that talk to the outside *)

(** [generate_chat_anserw] (lines 65-73). *)
Definition generate_chat_anserw (system_prompt user_prompt : string)
  : M string :=
  fun r =>
    let (content, w) := llm (world r) system_prompt user_prompt in
    (Returned content,
     mkRun (self r) w (stdin r) (terminal r)
           (llm_log r ++ [mkLlmCall system_prompt user_prompt content])
           (graph_log r)).

(** [generate_cypher_query] (lines 78-86). *)
Definition generate_cypher_query : M string :=
  s <- get_self ;;
  generate_chat_anserw
    "You are an expert Neo4j Cypher generator."
    (cypher_prompt_template (rag_question s) (previous_queries s)
                            (used_queries s)).

(** [str(self._graphDB.query(cypher_query))] (line 164). *)
Definition graphDB_query (cypher_query : PyVal) : M string :=
  fun r =>
    let (res, w) := graph_query (world r) cypher_query in
    let r' := mkRun (self r) w (stdin r) (terminal r) (llm_log r)
                    (graph_log r ++ [mkGraphCall cypher_query res]) in
    match res with
    | inl rows => (Returned rows, r')
    | inr e => (Raised e, r')
    end.

(** *** The retrieval loop of [chat] *)

(** Lines 162-171: the [try] statement of the loop body.  It leaves the
    pair of local variables [(cypher_query, context)], where [None] for
    [context] is Python's [None]. *)
Definition try_query (cypher_query : PyVal) : M (PyVal * option string) :=
  try_except
    (context <- graphDB_query cypher_query ;;
     if String.eqb (Str.strip context) "[]"
     then
       annotated <- lift (py_str_add no_data_prefix cypher_query) ;;
       ret (annotated, None)
     else ret (cypher_query, Some context))
    CypherSyntaxError
    (print ("System: System error, cannot provide additional data" ++ nl) ;;
     annotated <- lift (py_str_add invalid_syntax_prefix cypher_query) ;;
     ret (annotated, None)).

(** Lines 174-178: the [if context == None] that files the query. *)
Definition file_query (locals : PyVal * option string) : M unit :=
  match locals with
  | (cypher_query, None) => update (append_previous cypher_query)
  | (cypher_query, Some context) => update (append_used context cypher_query)
  end.

(** Lines 162-178: one pass through the body of the [for] loop. *)
Definition run_query (cypher_query : PyVal) : M unit :=
  locals <- try_query cypher_query ;;
  file_query locals.

(** Lines 161-178: the [for] loop over the candidates. *)
Fixpoint run_queries (cypher_queries_list : list PyVal) : M unit :=
  match cypher_queries_list with
  | [] => ret tt
  | cypher_query :: rest => run_query cypher_query ;; run_queries rest
  end.

(** Lines 155-158: "Transform string to list". *)
Definition parse_queries (text : string) : M PyVal :=
  try_except (lift (literal_eval text))
             SyntaxError
             (ret (PyList [PyStr text])).

(** Lines 136-146 and 181-190: ask the model for an answer. *)
Definition generate_answer : M unit :=
  s <- get_self ;;
  a <- generate_chat_anserw
         "You are movie chatbot"
         (base_template (question s) (context s) (chat_history s)) ;;
  update (set_answer a).

(** Lines 150-151: [self._answer.split("NO_CONTEXT")[-1].strip()]. *)
Definition followup_of (answer : string) : string :=
  Str.strip (last (Str.split NO_CONTEXT answer) EmptyString).

(** Lines 150-190: the body of the [while] loop, one retrieval round. *)
Definition retrieval_round : M unit :=
  s <- get_self ;;
  update (set_rag_question (followup_of (answer s))) ;;
  text <- generate_cypher_query ;;
  parsed <- parse_queries text ;;
  cypher_queries_list <- lift (py_iter parsed) ;;
  run_queries cypher_queries_list ;;
  generate_answer.

(** Lines 149-190: [while "NO_CONTEXT" in self._answer].  [fuel] bounds
    the number of rounds; the program has no such bound. *)
Fixpoint retrieval_loop (fuel : nat) : M unit :=
  fun r =>
    if Str.contains NO_CONTEXT (answer (self r))
    then match fuel with
         | O => (Starved, r)
         | S fuel' => (retrieval_round ;; retrieval_loop fuel') r
         end
    else (Returned tt, r).

(** Lines 130-194: the branch of [chat] that handles a question. *)
Definition ask (fuel : nat) (user_q : string) : M unit :=
  update (begin_question user_q) ;;
  generate_answer ;;
  retrieval_loop fuel ;;
  s <- get_self ;;
  print ("Bot: " ++ answer s ++ nl) ;;
  update save_chat_history.

(** *** The interactive loop *)

Definition banner : string :=
  "Chatbot ready! Type 'exit' to quit. Type 'restart' to restart whole conversation."
  ++ nl.

(** Lines 114-194: [while True].  Every pass reads a line or ends the
    loop, so [turns] passes suffice for an input of fewer lines. *)
Fixpoint chat_loop (turns fuel : nat) : M unit :=
  match turns with
  | O => fun r => (Starved, r)
  | S turns' =>
      user_q <- input "You: " ;;
      if String.eqb (Str.lower user_q) "exit"
         || String.eqb (Str.lower user_q) "quit"
      then update restart
      else if String.eqb (Str.lower user_q) "restart"
      then update restart ;; emit ClearScreen ;; print banner ;;
           chat_loop turns' fuel
      else ask fuel user_q ;; chat_loop turns' fuel
  end.

(** [chat] (lines 112-194). *)
Definition chat (fuel : nat) : M unit :=
  print banner ;;
  fun r => chat_loop (S (List.length (stdin r))) fuel r.

End Chat.

(** ** Vocabulary of the properties *)

Section Vocabulary.

Context {E : Outside}.

(** The run a computation leaves behind. *)
Definition run {A} (c : M A) (r : Run) : Run := snd (c r).

(** The states a question passes through between its reset and the end
    of its retrieval loop: after the four assignments of lines 130-133,
    and after each of the steps the loop is made of (an answer, the
    assignment to [_rag_question], a query generation, one pass through
    the [for] loop).  Any follow-up and any query are let in, so the set
    holds the states [resolve] goes through and possibly more. *)
Inductive reachable (user_q : string) (r0 : Run) : Run -> Prop :=
| reach_reset :
    reachable user_q r0 (run (update (begin_question user_q)) r0)
| reach_answer r :
    reachable user_q r0 r ->
    reachable user_q r0 (run generate_answer r)
| reach_followup r v :
    reachable user_q r0 r ->
    reachable user_q r0 (run (update (set_rag_question v)) r)
| reach_generate r :
    reachable user_q r0 r ->
    reachable user_q r0 (run generate_cypher_query r)
| reach_query r cypher_query :
    reachable user_q r0 r ->
    reachable user_q r0 (run (run_query cypher_query) r).

(** The graph calls made since the log had [base] entries. *)
Definition calls_since (base : nat) (r : Run) : list GraphCall :=
  skipn base (graph_log r).

(** A call that came back with rows whose text is not ["[]"]. *)
Definition success_of (c : GraphCall) : option (PyVal * string) :=
  match came_back c with
  | inl rows =>
      if String.eqb (Str.strip rows) "[]" then None
      else Some (submitted c, rows)
  | inr _ => None
  end.

Fixpoint successes (calls : list GraphCall) : list (PyVal * string) :=
  match calls with
  | [] => []
  | c :: rest =>
      match success_of c with
      | Some p => p :: successes rest
      | None => successes rest
      end
  end.

(** [_context] and [_used_queries] hold, entry by entry and in the order
    of execution, the successful calls made since the log had [base]
    entries. *)
Definition paired (base : nat) (r : Run) : Prop :=
  List.length (context (self r)) = List.length (used_queries (self r))
  /\ combine (used_queries (self r)) (context (self r))
     = successes (calls_since base r).

(** Every way a pass can end: the query is filed as invalid, as without
    data, or as used; or an exception leaves the object as it was.  The
    indices are what came back from the graph, how the pass ended, the
    object after it and what it printed. *)
Inductive pass_result (cypher_query : PyVal) (b : MovieChatBot)
  : string + PyExn -> Outcome unit -> MovieChatBot -> list TermEvent -> Prop :=
| pass_invalid s :
    cypher_query = PyStr s ->
    pass_result cypher_query b
      (inr CypherSyntaxError) (Returned tt)
      (append_previous (PyStr (invalid_syntax_prefix ++ s)) b)
      [Printed ("System: System error, cannot provide additional data" ++ nl)]
| pass_no_data s rows :
    cypher_query = PyStr s ->
    Str.strip rows = "[]" ->
    pass_result cypher_query b
      (inl rows) (Returned tt)
      (append_previous (PyStr (no_data_prefix ++ s)) b) []
| pass_used rows :
    Str.strip rows <> "[]" ->
    pass_result cypher_query b
      (inl rows) (Returned tt) (append_used rows cypher_query b) []
| pass_escapes e :
    e <> CypherSyntaxError ->
    pass_result cypher_query b (inr e) (Raised e) b []
| pass_invalid_not_str :
    is_str cypher_query = false ->
    pass_result cypher_query b
      (inr CypherSyntaxError) (Raised TypeError) b
      [Printed ("System: System error, cannot provide additional data" ++ nl)]
| pass_no_data_not_str rows :
    is_str cypher_query = false ->
    Str.strip rows = "[]" ->
    pass_result cypher_query b (inl rows) (Raised TypeError) b [].

(** What [ask] does before it prints: lines 130-190. *)
Definition resolve (fuel : nat) (user_q : string) : M unit :=
  bind (update (begin_question user_q))
       (fun _ => bind generate_answer (fun _ => retrieval_loop fuel)).

(** What [ask] does after the loop: lines 193-194. *)
Definition conclude (r : Run) : Run :=
  mkRun (save_chat_history (self r)) (world r) (stdin r)
        (terminal r ++ [Printed ("Bot: " ++ answer (self r) ++ nl)])
        (llm_log r) (graph_log r).

(** A computation that keeps a property of runs, however it ends. *)
Definition preserves {A} (P : Run -> Prop) (c : M A) : Prop :=
  forall r, P r -> P (run c r).

(** A call that failed in the sense of the loop: a Cypher syntax error,
    or rows whose text is ["[]"]. *)
Definition failed_call (c : GraphCall) : Prop :=
  came_back c = inr CypherSyntaxError
  \/ exists rows, came_back c = inl rows /\ Str.strip rows = "[]".

(** A call the graph answered: with rows, or by rejecting the syntax. *)
Definition answered (c : GraphCall) : Prop :=
  came_back c = inr CypherSyntaxError
  \/ exists rows, came_back c = inl rows.

(** No call repeats the query of an earlier failed call. *)
Definition never_resubmits_failed (calls : list GraphCall) : Prop :=
  forall i j ci cj,
    i < j ->
    nth_error calls i = Some ci ->
    nth_error calls j = Some cj ->
    failed_call ci ->
    submitted cj <> submitted ci.


(** All five fields of the retrieval state at their fresh values for the
    question [user_q]. *)
Definition retrieval_state_reset (user_q : string) (b : MovieChatBot)
  : Prop :=
  question b = user_q /\ rag_question b = "" /\ context b = []
  /\ previous_queries b = [] /\ used_queries b = [].

(** The run with [_rag_question] blanked. *)
Definition scrub (r : Run) : Run :=
  mkRun (set_rag_question "" (self r)) (world r) (stdin r) (terminal r)
        (llm_log r) (graph_log r).

(** Two runs that agree on everything a question does not reset: the
    history, the outside world and what was observed so far. *)
Definition same_session (r1 r2 : Run) : Prop :=
  chat_history (self r1) = chat_history (self r2)
  /\ world r1 = world r2 /\ stdin r1 = stdin r2
  /\ terminal r1 = terminal r2 /\ llm_log r1 = llm_log r2
  /\ graph_log r1 = graph_log r2.

(** The text the model is asked to turn into queries in the round that
    starts in [r]. *)
Definition generated_text (r : Run) : string :=
  fst (llm (world r)
           "You are an expert Neo4j Cypher generator."
           (cypher_prompt_template (followup_of (answer (self r)))
                                   (previous_queries (self r))
                                   (used_queries (self r)))).

(** The run of a round once the queries were asked for: lines 150-152. *)
Definition asked (r : Run) : Run :=
  run generate_cypher_query
      (run (update (set_rag_question (followup_of (answer (self r))))) r).

(** The candidates [parse_queries] and the [for] statement make of the
    generated text, or the exception one of them raises. *)
Definition candidates_of (r : Run) : list PyVal + PyExn :=
  match literal_eval (generated_text r) with
  | inl v => py_iter v
  | inr e =>
      if PyExn_eqb e SyntaxError then inl [PyStr (generated_text r)]
      else inr e
  end.

(** No round submits a query again that failed earlier in the round. *)
Definition round_never_resubmits : Prop :=
  forall r,
    never_resubmits_failed
      (calls_since (List.length (graph_log r)) (run retrieval_round r)).

(** The first answer to [user_q] asked in [r]. *)
Definition first_answer (user_q : string) (r : Run) : string :=
  fst (llm (world r)
           "You are movie chatbot"
           (base_template user_q [] (chat_history (self r)))).

End Vocabulary.

(** ** Sample collaborators *)

Module Sample.

(** The double quote. *)
Definition dq : string := String (ascii_of_nat 34) EmptyString.

Definition inception_query : string :=
  "MATCH (p:Person)-[:DIRECTED]->(m:Movie {title:'Inception'}) RETURN p.name".

Definition inception_rows : string :=
  "[{'p.name': 'Christopher Nolan'}]".

(** [ast.literal_eval] on the texts of the examples: a list of one
    double-quoted query, a list of two equal queries, a quoted string, a
    bare name (which is a [ValueError]: malformed node or string), and
    prose or a bare Cypher query otherwise, which Python cannot parse. *)
Definition literal_eval_table (text : string) : PyVal + PyExn :=
  if String.eqb text ("[" ++ dq ++ inception_query ++ dq ++ "]")
  then inl (PyList [PyStr inception_query])
  else if String.eqb text "['X', 'X']"
  then inl (PyList [PyStr "X"; PyStr "X"])
  else if String.eqb text "'ab'" then inl (PyStr "ab")
  else if String.eqb text "UNKNOWN" then inr ValueError
  else inr SyntaxError.

(** A graph that knows who directed Inception, has no node labelled
    [Nothing], and rejects everything else as invalid Cypher. *)
Definition graph_table (q : PyVal) : string + PyExn :=
  match q with
  | PyStr s =>
      if String.eqb s inception_query then inl inception_rows
      else if String.eqb s "MATCH (n:Nothing) RETURN n" then inl "[]"
      else inr CypherSyntaxError
  | _ => inr TypeError
  end.

Definition render_answer_prompt
           (question : string) (context : list string) (h : list Turn)
  : string :=
  String.concat ", " (question :: context).

Definition render_query_prompt
           (question : string) (previous used : list PyVal) : string :=
  question.

(** A model that reads its replies from a script, one per request. *)
Definition scripted : Outside := {|
  World := list string;
  llm := fun w _ _ => (hd "" w, tl w);
  graph_query := fun w q => (graph_table q, w);
  literal_eval := literal_eval_table;
  base_template := render_answer_prompt;
  cypher_prompt_template := render_query_prompt
|}.

(** A model that reports missing context whatever it is asked, over a
    graph without data. *)
Definition stubborn : Outside := {|
  World := unit;
  llm := fun w _ _ => ("NO_CONTEXT more", w);
  graph_query := fun w _ => (inl "[]", w);
  literal_eval := fun _ => inr SyntaxError;
  base_template := render_answer_prompt;
  cypher_prompt_template := render_query_prompt
|}.

(** A new chatbot in front of a scripted model. *)
Definition fresh (script : list string) : @Run scripted :=
  mkRun (E := scripted) init script [] [] [] [].

Definition fresh_stubborn : @Run stubborn :=
  mkRun (E := stubborn) init tt [] [] [] [].

(** The scenario of one retrieval round: the first answer asks for
    context, one query is generated and succeeds, the second answer is
    final. *)
Definition inception_script : list string :=
  ["NO_CONTEXT Who directed the movie Inception?";
   ("[" ++ dq ++ inception_query ++ dq ++ "]")%string;
   "Christopher Nolan directed Inception."].

(** The run of a question once its first answer has come: [resolve]
    without fuel stops in front of the first round. *)
Definition awaiting (user_q : string) (script : list string)
  : @Run scripted :=
  run (E := scripted) (resolve 0 user_q) (fresh script).

(** A chatbot that has answered the Inception question and faces a
    model that will say [Hello!] next. *)
Definition after_inception : @Run scripted :=
  run (E := scripted) (ask 3 "Who directed Inception?")
      (fresh (inception_script ++ ["Hello!"])).

(** A chatbot whose retrieval state is left over from some earlier
    question, in front of the same model as [fresh ["Hello!"]]. *)
Definition leftover : @Run scripted :=
  mkRun (E := scripted)
        (mkBot [] "stale follow-up" "old question" "old answer"
               ["old rows"] [PyStr "old failure"] [PyStr "old query"])
        ["Hello!"] [] [] [] [].

End Sample.


(** ** The session at the terminal *)

(** Line 119: [user_q.lower() in ["exit", "quit"]]. *)
Definition is_quit (user_q : string) : bool :=
  String.eqb (Str.lower user_q) "exit" || String.eqb (Str.lower user_q) "quit".

(** Line 124: [user_q.lower() == "restart"]. *)
Definition is_restart (user_q : string) : bool :=
  String.eqb (Str.lower user_q) "restart".

(** The lines of a session that are put to the model as questions, when
    none of them ends the session. *)
Definition question_lines (lines : list string) : list string :=
  filter (fun l => negb (is_restart l)) lines.

(** A history made of exchanges: a user entry followed by an assistant
    entry, any number of times. *)
Fixpoint exchanges (h : list Turn) : bool :=
  match h with
  | [] => true
  | UserTurn _ _ :: AssistantTurn _ :: rest => exchanges rest
  | _ => false
  end.

(** The argument of the [print] of line 169. *)
Definition notice : string :=
  "System: System error, cannot provide additional data" ++ nl.

(** A call that came back with a Cypher syntax error. *)
Definition is_rejected (c : GraphCall) : bool :=
  match came_back c with
  | inr CypherSyntaxError => true
  | _ => false
  end.

Section SessionVocabulary.

Context {E : Outside}.

(** What the terminal saw, and what the model was asked, since the logs
    had [base] entries. *)
Definition terminal_since (base : nat) (r : Run) : list TermEvent :=
  skipn base (terminal r).

Definition llm_since (base : nat) (r : Run) : list LlmCall :=
  skipn base (llm_log r).

(** A request for an answer to the question [user_q] under the history
    [h], with some context; a request for queries. *)
Definition answer_request (user_q : string) (h : list Turn) (c : LlmCall)
  : Prop :=
  system_prompt c = "You are movie chatbot"
  /\ exists ctx, user_prompt c = base_template user_q ctx h.

Definition query_request (c : LlmCall) : Prop :=
  system_prompt c = "You are an expert Neo4j Cypher generator.".

(** The run of a question in front of its first round: lines 130-146. *)
Definition opened (user_q : string) (r : Run) : Run :=
  run generate_answer (run (update (begin_question user_q)) r).

(** The three lists of the retrieval state have grown from [r] to [r']:
    nothing recorded was dropped or changed. *)
Definition grown (r r' : Run) : Prop :=
  (exists more, previous_queries (self r')
                = previous_queries (self r) ++ more)
  /\ (exists more, used_queries (self r') = used_queries (self r) ++ more)
  /\ (exists more, context (self r') = context (self r) ++ more).

(** The answer held is the reply to the last request, which was a
    request for an answer. *)
Definition just_answered (r : Run) : Prop :=
  exists calls c,
    llm_log r = calls ++ [c]
    /\ answer (self r) = reply c
    /\ system_prompt c = "You are movie chatbot".

(** The last call in the graph log submitted [q]. *)
Definition submitted_last (q : PyVal) (r : Run) : Prop :=
  exists calls c, graph_log r = calls ++ [c] /\ submitted c = q.

(** The run after [input] has read a line and left [rest] unread
    (line 116), and after the restart of lines 125-127. *)
Definition after_input (r : Run) (rest : list string) : Run :=
  mkRun (self r) (world r) rest (terminal r ++ [InputPrompt "You: "])
        (llm_log r) (graph_log r).

Definition after_restart (r : Run) : Run :=
  mkRun (restart (self r)) (world r) (stdin r)
        ((terminal r ++ [ClearScreen]) ++ [Printed banner])
        (llm_log r) (graph_log r).

(** The run in which line 120 leaves the program: everything restarted. *)
Definition after_quit (r : Run) : Run :=
  mkRun (restart (self r)) (world r) (stdin r) (terminal r)
        (llm_log r) (graph_log r).

(** The run after the banner of line 113. *)
Definition after_banner (r : Run) : Run :=
  mkRun (self r) (world r) (stdin r) (terminal r ++ [Printed banner])
        (llm_log r) (graph_log r).

End SessionVocabulary.

(** ** Construction of the chatbot *)

Section Construction.

(** The values of the connection parameters: whatever [os.getenv] or the
    caller supplies. *)
Variable V : Type.

(** A [dict] with [str] keys, as the list of its items. *)
Definition Dict : Type := list (string * V).

(** [k in d] *)
Definition has_key (d : Dict) (k : string) : bool :=
  existsb (String.eqb k) (map fst d).

(** [d[k]]; [None] stands for the [KeyError] of a missing key. *)
Fixpoint lookup (d : Dict) (k : string) : option V :=
  match d with
  | [] => None
  | (k', v) :: rest => if String.eqb k k' then Some v else lookup rest k
  end.

Definition required_keys : list string :=
  ["url"; "username"; "password"; "database"].

(** Line 47: [list(set([...]) - set(db_connection.keys()))].  The order of
    the Python list is that of a set and is not fixed; line 48 uses its
    length only. *)
Definition missing_keys (db_connection : Dict) : list string :=
  filter (fun k => negb (has_key db_connection k)) required_keys.

(** What [__init__] calls outside the repository: the constructor of
    [InferenceClient] (line 32), the reading of [prompts.yaml] into the two
    templates (lines 36-44), and the constructor of [Neo4jGraph] with its
    four arguments (lines 51-56).  Each returns or raises. *)
Record Services : Type := mkServices {
  new_client : unit + PyExn;
  load_prompts : unit + PyExn;
  connect : V -> V -> V -> V -> unit + PyExn
}.

(** [__init__] (lines 20-56): the new object or the exception raised,
    with the arguments of every [Neo4jGraph] constructed. *)
Definition construct (S : Services) (db_connection : Dict)
  : (MovieChatBot + PyExn) * list (V * V * V * V) :=
  match new_client S with
  | inr e => (inr e, [])
  | inl _ =>
      match load_prompts S with
      | inr e => (inr e, [])
      | inl _ =>
          match missing_keys db_connection with
          | _ :: _ => (inr (OtherError "KeyError"), [])
          | [] =>
              match lookup db_connection "url",
                    lookup db_connection "username",
                    lookup db_connection "password",
                    lookup db_connection "database" with
              | Some url, Some username, Some password, Some database =>
                  (match connect S url username password database with
                   | inl _ => inl init
                   | inr e => inr e
                   end,
                   [(url, username, password, database)])
              | _, _, _, _ => (inr (OtherError "KeyError"), [])
              end
          end
      end
  end.

(** [app.py], lines 23-28: the dict built from the four environment
    variables. *)
Definition app_db_connection (URI USER PASSWORD DB_NAME : V) : Dict :=
  [("url", URI); ("username", USER); ("password", PASSWORD);
   ("database", DB_NAME)].

End Construction.

(** ** More sample collaborators *)

Module Cases.

(** A model that answers every request with a greeting, over the graph
    of the other samples. *)
Definition polite : Outside := {|
  World := unit;
  llm := fun w _ _ => ("Hello!", w);
  graph_query := fun w q => (Sample.graph_table q, w);
  literal_eval := Sample.literal_eval_table;
  base_template := Sample.render_answer_prompt;
  cypher_prompt_template := Sample.render_query_prompt
|}.

(** A new chatbot in front of the polite model, with the lines the user
    will type. *)
Definition seated (lines : list string) : @Run polite :=
  mkRun (E := polite) init tt lines [] [] [].

(** Services that all succeed. *)
Definition services_up : Services (option string) :=
  mkServices (inl tt) (inl tt) (fun _ _ _ _ => inl tt).

(** [ast.literal_eval] on two more texts: the empty list and a number. *)
Definition literal_eval_more (text : string) : PyVal + PyExn :=
  if String.eqb text "[]" then inl (PyList [])
  else if String.eqb text "42" then inl (PyInt 42)
  else Sample.literal_eval_table text.

(** The graph of the other samples, without connection for the query
    [DOWN]. *)
Definition graph_flaky (q : PyVal) : string + PyExn :=
  match q with
  | PyStr s =>
      if String.eqb s "DOWN" then inr (OtherError "ServiceUnavailable")
      else Sample.graph_table q
  | _ => Sample.graph_table q
  end.

(** A scripted model in front of these two. *)
Definition scripted_more : Outside := {|
  World := list string;
  llm := fun w _ _ => (hd "" w, tl w);
  graph_query := fun w q => (graph_flaky q, w);
  literal_eval := literal_eval_more;
  base_template := Sample.render_answer_prompt;
  cypher_prompt_template := Sample.render_query_prompt
|}.

Definition fresh_more (script : list string) : @Run scripted_more :=
  mkRun (E := scripted_more) init script [] [] [] [].

(** Two dicts of connection parameters: one without [password], one with
    the four keys in another order, an unset password and a key more. *)
Definition incomplete_connection : Dict (option string) :=
  [("url", Some "bolt://db"); ("username", Some "neo4j");
   ("database", Some "movies")].

Definition complete_connection : Dict (option string) :=
  [("database", Some "movies"); ("timeout", Some "30");
   ("password", None); ("username", Some "neo4j");
   ("url", Some "bolt://db")].

End Cases.

(** ** The calls of a batch *)

Section BatchVocabulary.

Context {E : Outside}.

(** The pass that made the call [c] returns rather than raises: rows with
    data came back, or the candidate is a string and the call failed in
    the sense of the loop.  A failure for a candidate that is no string,
    and any other exception, raise. *)
Definition passesb (c : GraphCall) : bool :=
  match came_back c with
  | inl rows =>
      if String.eqb (Str.strip rows) "[]" then is_str (submitted c) else true
  | inr CypherSyntaxError => is_str (submitted c)
  | inr _ => false
  end.

(** The calls a [for] loop over [qs] makes to a graph in the world [w]:
    one for each candidate, in order, up to and with the first whose pass
    raises. *)
Fixpoint replay (qs : list PyVal) (w : World) : list GraphCall :=
  match qs with
  | [] => []
  | q :: rest =>
      let c := mkGraphCall q (fst (graph_query w q)) in
      c :: (if passesb c then replay rest (snd (graph_query w q)) else [])
  end.

(** The calls of the round that starts in [r]. *)
Definition round_calls (r : Run) : list GraphCall :=
  calls_since (List.length (graph_log r)) (run retrieval_round r).



End BatchVocabulary.

(** ** Sample collaborators that are not particular about types *)

Module Untyped.

(** [ast.literal_eval] on lists that hold more than strings, and on
    literals that are no lists. *)
Definition literal_eval_mixed (text : string) : PyVal + PyExn :=
  if String.eqb text "[1, 'MATCH (n:Nothing) RETURN n']"
  then inl (PyList [PyInt 1; PyStr "MATCH (n:Nothing) RETURN n"])
  else if String.eqb text "['X', 'DOWN', 'X']"
  then inl (PyList [PyStr "X"; PyStr "DOWN"; PyStr "X"])
  else if String.eqb text "('X', 'Y')"
  then inl (PyTuple [PyStr "X"; PyStr "Y"])
  else if String.eqb text "{'X': 1, 'Y': 2}"
  then inl (PyDict [(PyStr "X", PyInt 1); (PyStr "Y", PyInt 2)])
  else if String.eqb text "{'X'}" then inl (PySet [PyStr "X"])
  else if String.eqb text "b'ab'"
  then inl (PyBytes [ascii_of_nat 97; ascii_of_nat 98])
  else if String.eqb text "None" then inl PyNone
  else Cases.literal_eval_more text.

(** A graph that finds no rows for a candidate that is no string, and is
    the graph of the other samples otherwise. *)
Definition graph_mixed (q : PyVal) : string + PyExn :=
  match q with
  | PyStr _ => Cases.graph_flaky q
  | _ => inl "[]"
  end.

Definition mixed : Outside := {|
  World := list string;
  llm := fun w _ _ => (hd "" w, tl w);
  graph_query := fun w q => (graph_mixed q, w);
  literal_eval := literal_eval_mixed;
  base_template := Sample.render_answer_prompt;
  cypher_prompt_template := Sample.render_query_prompt
|}.

Definition fresh_mixed (script : list string) : @Run mixed :=
  mkRun (E := mixed) init script [] [] [] [].

(** The run of a question in front of its first round. *)
Definition awaiting_mixed (user_q : string) (script : list string)
  : @Run mixed :=
  opened (E := mixed) user_q (fresh_mixed script).


End Untyped.

(** ** Properties *)

Section Facts.

Context {E : Outside}.

Ltac unfold_steps :=
  unfold run, run_query, try_query, file_query, graphDB_query,
    generate_answer, generate_cypher_query, generate_chat_anserw,
    parse_queries, try_except, bind, ret, raise, lift, update, print,
    emit, get_self in *.

(** *** Lists *)

Lemma successes_app (l1 l2 : list GraphCall) :
  successes (l1 ++ l2) = successes l1 ++ successes l2.
Proof.
  induction l1 as [|c l1 IH]; simpl; [reflexivity|].
  destruct (success_of c); simpl; rewrite IH; reflexivity.
Qed.

Lemma combine_snoc {A B} (l1 : list A) (l2 : list B) a b :
  length l1 = length l2 ->
  combine (l1 ++ [a]) (l2 ++ [b]) = combine l1 l2 ++ [(a, b)].
Proof.
  revert l2; induction l1 as [|x l1 IH]; intros [|y l2] H; simpl in *;
    try discriminate; [reflexivity|].
  rewrite IH by congruence. reflexivity.
Qed.

Lemma skipn_snoc {A} (n : nat) (l : list A) (a : A) :
  n <= length l -> skipn n (l ++ [a]) = skipn n l ++ [a].
Proof.
  intros H. rewrite skipn_app.
  replace (n - length l) with 0 by lia. reflexivity.
Qed.

(** *** One pass through the body of the [for] loop *)

Lemma PyExn_eqb_eq (a b : PyExn) : PyExn_eqb a b = true <-> a = b.
Proof.
  destruct a, b; simpl; split; intros H;
    try reflexivity; try discriminate.
  - apply String.eqb_eq in H. congruence.
  - inversion H. apply String.eqb_refl.
Qed.

Lemma run_query_pass (cypher_query : PyVal) (r : Run) :
  exists o b t,
    run_query cypher_query r
    = (o, mkRun b (snd (graph_query (world r) cypher_query)) (stdin r)
                (terminal r ++ t) (llm_log r)
                (graph_log r
                   ++ [mkGraphCall cypher_query
                         (fst (graph_query (world r) cypher_query))]))
    /\ pass_result cypher_query (self r)
         (fst (graph_query (world r) cypher_query)) o b t.
Proof.
  unfold_steps.
  destruct (graph_query (world r) cypher_query) as [[rows|e] w]; simpl.
  - destruct (String.eqb (Str.strip rows) "[]") eqn:Hrows.
    + apply String.eqb_eq in Hrows.
      destruct cypher_query; simpl;
        try (do 3 eexists; split;
             [rewrite app_nil_r; reflexivity
             | first [ eapply pass_no_data; [reflexivity | assumption]
                     | eapply pass_no_data_not_str;
                       [reflexivity | assumption] ] ]).
    + apply String.eqb_neq in Hrows.
      do 3 eexists; split;
        [rewrite app_nil_r; reflexivity | apply pass_used; assumption].
  - destruct (PyExn_eqb e CypherSyntaxError) eqn:He.
    + apply PyExn_eqb_eq in He. subst e.
      destruct cypher_query; simpl;
        do 3 eexists; (split; [reflexivity|]);
        first [ eapply pass_invalid; reflexivity
              | eapply pass_invalid_not_str; reflexivity ].
    + do 3 eexists; split; [rewrite app_nil_r; reflexivity|].
      apply pass_escapes. intros ->. discriminate.
Qed.

(** *** Properties kept by every step *)

Lemma run_bind {A B} (c : M A) (k : A -> M B) (r : Run) :
  run (bind c k) r
  = match fst (c r) with
    | Returned a => run (k a) (run c r)
    | _ => run c r
    end.
Proof.
  unfold run, bind. destruct (c r) as [[a|e|] r']; reflexivity.
Qed.

Lemma preserves_bind {A B} (P : Run -> Prop) (c : M A) (k : A -> M B) :
  preserves P c -> (forall a, preserves P (k a)) -> preserves P (bind c k).
Proof.
  intros Hc Hk r Hr. rewrite run_bind.
  destruct (fst (c r)); [apply Hk|..]; apply Hc; exact Hr.
Qed.

Lemma preserves_ret {A} (P : Run -> Prop) (a : A) : preserves P (ret a).
Proof. intros r Hr. exact Hr. Qed.

Lemma preserves_lift {A} (P : Run -> Prop) (x : A + PyExn) :
  preserves P (lift x).
Proof. intros r Hr. destruct x; exact Hr. Qed.

Lemma preserves_get_self (P : Run -> Prop) : preserves P get_self.
Proof. intros r Hr. exact Hr. Qed.

Lemma preserves_parse_queries (P : Run -> Prop) (text : string) :
  preserves P (parse_queries text).
Proof.
  intros r Hr. unfold_steps.
  destruct (literal_eval text) as [v|e]; simpl; [exact Hr|].
  destruct (PyExn_eqb e SyntaxError); exact Hr.
Qed.

Lemma preserves_run_queries (P : Run -> Prop) :
  (forall q, preserves P (run_query q)) ->
  forall qs, preserves P (run_queries qs).
Proof.
  intros Hq qs. induction qs as [|q qs IH]; simpl.
  - apply preserves_ret.
  - apply preserves_bind; [apply Hq | intros _; exact IH].
Qed.

(** A property that the four kinds of step keep is kept by a whole
    round and by the whole loop. *)
Lemma preserves_retrieval_round (P : Run -> Prop) :
  (forall v, preserves P (update (set_rag_question v))) ->
  preserves P generate_cypher_query ->
  (forall q, preserves P (run_query q)) ->
  preserves P generate_answer ->
  preserves P retrieval_round.
Proof.
  intros Hf Hg Hq Ha. unfold retrieval_round.
  apply preserves_bind; [apply preserves_get_self | intros s].
  apply preserves_bind; [apply Hf | intros _].
  apply preserves_bind; [apply Hg | intros text].
  apply preserves_bind; [apply preserves_parse_queries | intros parsed].
  apply preserves_bind; [apply preserves_lift | intros qs].
  apply preserves_bind; [apply preserves_run_queries; exact Hq | intros _].
  exact Ha.
Qed.

Lemma preserves_retrieval_loop (P : Run -> Prop) :
  preserves P retrieval_round ->
  forall fuel, preserves P (retrieval_loop fuel).
Proof.
  intros Hround fuel. induction fuel as [|fuel IH]; intros r Hr.
  - unfold run. simpl.
    destruct (Str.contains NO_CONTEXT (answer (self r))); exact Hr.
  - unfold run. simpl.
    destruct (Str.contains NO_CONTEXT (answer (self r))); [|exact Hr].
    exact (preserves_bind (fun _ => retrieval_loop fuel)
                          Hround (fun _ => IH) r Hr).
Qed.

(** *** The states of a question *)

Lemma reachable_retrieval_round user_q r0 :
  preserves (reachable user_q r0) retrieval_round.
Proof.
  apply preserves_retrieval_round; intros; intros r Hr.
  - apply reach_followup; exact Hr.
  - apply reach_generate; exact Hr.
  - apply reach_query; exact Hr.
  - apply reach_answer; exact Hr.
Qed.

Lemma reachable_resolve fuel user_q r0 :
  reachable user_q r0 (run (resolve fuel user_q) r0).
Proof.
  unfold resolve. rewrite run_bind. simpl.
  refine (preserves_bind (fun _ => retrieval_loop fuel) _ _ _
                         (reach_reset user_q r0)).
  - intros r Hr. apply reach_answer; exact Hr.
  - intros _. apply preserves_retrieval_loop, reachable_retrieval_round.
Qed.

(** [ask] is [resolve] followed, when it returns, by [conclude]. *)
Lemma ask_resolve fuel user_q r :
  ask fuel user_q r
  = match resolve fuel user_q r with
    | (Returned _, r') => (Returned tt, conclude r')
    | other => other
    end.
Proof.
  unfold ask, resolve, bind. simpl.
  destruct (generate_answer _) as [[[]|e|] r1]; try reflexivity;
    destruct (retrieval_loop fuel r1) as [[[]|e'|] r2]; reflexivity.
Qed.

(** *** What holds in every state of a question *)

Lemma reachable_paired user_q r0 r :
  reachable user_q r0 r ->
  List.length (graph_log r0) <= List.length (graph_log r)
  /\ paired (List.length (graph_log r0)) r.
Proof.
  induction 1 as [|r Hr IH|r v Hr IH|r Hr IH|r q Hr IH].
  - unfold paired, calls_since. simpl. rewrite skipn_all. auto.
  - unfold_steps. destruct (llm _ _ _) as [a w]. exact IH.
  - exact IH.
  - unfold_steps. destruct (llm _ _ _) as [a w]. exact IH.
  - destruct IH as [Hle [Hlen Hcomb]].
    destruct (run_query_pass q r) as (o & b & t & Heq & Hpass).
    unfold run. rewrite Heq. unfold paired, calls_since in *. simpl.
    rewrite length_app, skipn_snoc, successes_app by exact Hle.
    simpl. unfold success_of. simpl.
    split; [lia|].
    inversion Hpass; subst; simpl;
      try match goal with
          | |- context [String.eqb ?a ?b] =>
              destruct (String.eqb_spec a b); try contradiction
          end;
      rewrite ?app_nil_r; try (split; assumption).
    split.
    + rewrite !length_app. simpl. lia.
    + rewrite combine_snoc by (symmetry; exact Hlen).
      rewrite Hcomb. reflexivity.
Qed.





Lemma reachable_history user_q r0 r :
  reachable user_q r0 r ->
  chat_history (self r) = chat_history (self r0)
  /\ question (self r) = user_q.
Proof.
  induction 1 as [|r Hr IH|r v Hr IH|r Hr IH|r q Hr IH].
  - split; reflexivity.
  - unfold_steps. destruct (llm _ _ _) as [a w]. exact IH.
  - exact IH.
  - unfold_steps. destruct (llm _ _ _) as [a w]. exact IH.
  - destruct (run_query_pass q r) as (o & b & t & Heq & Hpass).
    unfold run. rewrite Heq. simpl.
    inversion Hpass; subst; simpl; exact IH.
Qed.

(** The run [ask] leaves is the one [resolve] leaves, concluded when the
    loop returned. *)
Lemma ask_run fuel user_q r0 :
  (fst (ask fuel user_q r0) = Returned tt
   /\ fst (resolve fuel user_q r0) = Returned tt
   /\ run (ask fuel user_q) r0 = conclude (run (resolve fuel user_q) r0))
  \/ (fst (ask fuel user_q r0) <> Returned tt
      /\ fst (ask fuel user_q r0) = fst (resolve fuel user_q r0)
      /\ run (ask fuel user_q) r0 = run (resolve fuel user_q) r0).
Proof.
  unfold run. rewrite ask_resolve.
  destruct (resolve fuel user_q r0) as [[[]|e|] r']; simpl.
  - left. auto.
  - right. repeat split; discriminate.
  - right. repeat split; discriminate.
Qed.

(** *** One pass, and the states of a question *)


(** C3. In every state of a question (after the reset of lines 130-133,
    after each pass through the [for] loop, after each round) and when
    [ask] is over, [_context] is as long as [_used_queries], and the two
    lists hold, entry by entry and in the order of execution, the
    queries that succeeded since the question began and what they
    returned. *)
Theorem context_is_paired_with_used_queries :
  forall (user_q : string) (r0 : Run),
    (forall r, reachable user_q r0 r ->
               paired (List.length (graph_log r0)) r)
    /\ (forall fuel,
          reachable user_q r0 (run (resolve fuel user_q) r0)
          /\ paired (List.length (graph_log r0))
                    (run (ask fuel user_q) r0)).
Proof.
  intros user_q r0. split.
  - intros r Hr. apply (reachable_paired Hr).
  - intros fuel. split; [apply reachable_resolve|].
    pose proof (proj2 (reachable_paired (reachable_resolve fuel user_q r0)))
      as Hp.
    destruct (ask_run fuel user_q r0) as [(_ & _ & ->)|(_ & _ & ->)];
      exact Hp.
Qed.

(** *** The [for] loop over the candidates *)

Lemma run_queries_cons q qs r :
  run_queries (q :: qs) r
  = match run_query q r with
    | (Returned _, r') => run_queries qs r'
    | (Raised e, r') => (Raised e, r')
    | (Starved, r') => (Starved, r')
    end.
Proof. reflexivity. Qed.

(** The calls of the loop are the candidates, in order, up to the first
    pass that raises. *)
Lemma run_queries_calls qs :
  forall r, exists calls rest,
    graph_log (run (run_queries qs) r) = graph_log r ++ calls
    /\ qs = map submitted calls ++ rest
    /\ (fst (run_queries qs r) = Returned tt -> rest = [])
    /\ (Forall (fun q => is_str q = true) qs ->
        Forall answered calls ->
        fst (run_queries qs r) = Returned tt).
Proof.
  induction qs as [|q qs IH]; intros r.
  - exists [], []. simpl. rewrite app_nil_r. auto.
  - destruct (run_query_pass q r) as (o & b & t & Heq & Hpass).
    unfold run. rewrite run_queries_cons, Heq.
    set (c := mkGraphCall q (fst (graph_query (world r) q))) in *.
    destruct o as [[]|e|].
    + match goal with
      | |- context [run_queries qs ?r1] =>
          destruct (IH r1) as (calls & rest & Hlog & Hqs & Hret & Hall)
      end.
      exists (c :: calls), rest. unfold run in Hlog. simpl in Hlog.
      rewrite Hlog, <- app_assoc. simpl.
      repeat split; [congruence | exact Hret |].
      intros Hstr Hans. inversion Hstr; inversion Hans; subst. auto.
    + exists [c], qs. simpl. repeat split; try discriminate.
      intros Hstr Hans. exfalso.
      inversion Hstr as [|? ? Hq _]; inversion Hans as [|? ? Hc _]; subst.
      unfold answered in Hc. subst c. simpl in Hc.
      inversion Hpass; subst;
        destruct Hc as [Hc|[rows' Hc]]; congruence.
    + inversion Hpass.
Qed.

Lemma calls_since_app (r r' : Run) calls :
  graph_log r' = graph_log r ++ calls ->
  calls_since (List.length (graph_log r)) r' = calls.
Proof.
  intros Hlog. unfold calls_since.
  rewrite Hlog, skipn_app, skipn_all, Nat.sub_diag. reflexivity.
Qed.

(** What a pass adds to the graph log and to the world, and whether it
    returns. *)
Lemma run_query_passes (q : PyVal) (r : Run) :
  graph_log (run (run_query q) r)
  = graph_log r ++ [mkGraphCall q (fst (graph_query (world r) q))]
  /\ world (run (run_query q) r) = snd (graph_query (world r) q)
  /\ ((fst (run_query q r) = Returned tt
       /\ passesb (mkGraphCall q (fst (graph_query (world r) q))) = true)
      \/ (exists e,
             fst (run_query q r) = Raised e
             /\ passesb (mkGraphCall q (fst (graph_query (world r) q)))
                = false)).
Proof.
  destruct (run_query_pass q r) as (o & b & t & Heq & Hpass).
  unfold run. rewrite Heq. simpl. split; [reflexivity|].
  split; [reflexivity|].
  unfold passesb. simpl.
  inversion Hpass as [s Hs Hres|s rows Hs Hrows Hres|rows Hrows Hres
                      |e He Hres|Hs Hres|rows Hs Hrows Hres];
    subst; simpl;
    try match goal with
        | |- context [String.eqb ?a ?b] =>
            destruct (String.eqb_spec a b); try contradiction
        end;
    try (left; split; reflexivity);
    try (right; eexists; split; [reflexivity|]).
  - destruct e; try reflexivity. contradiction.
  - exact Hs.
  - exact Hs.
Qed.

Lemma passesb_spec (c : GraphCall) :
  passesb c = true
  <-> (exists rows, came_back c = inl rows /\ Str.strip rows <> "[]")
      \/ (is_str (submitted c) = true /\ failed_call c).
Proof.
  destruct c as [q res]. unfold passesb, failed_call. simpl.
  destruct res as [rows|e].
  - destruct (String.eqb_spec (Str.strip rows) "[]") as [Hrows|Hrows].
    + split.
      * intros Hq. right. split; [exact Hq|]. right. eauto.
      * intros [(rows' & Heq & Hne)|[Hq _]]; [|exact Hq].
        inversion Heq; subst. contradiction.
    + split; [|reflexivity]. intros _. left. eauto.
  - split.
    + destruct e; try discriminate. intros Hq. right. auto.
    + intros [(rows & Heq & _)|[Hq [Heq|(rows & Heq & _)]]];
        try discriminate.
      inversion Heq; subst. exact Hq.
Qed.


(** The loop makes the calls [replay] lists, and returns when all of
    them pass. *)
Lemma run_queries_replay (qs : list PyVal) :
  forall r,
    graph_log (run (run_queries qs) r) = graph_log r ++ replay qs (world r)
    /\ ((fst (run_queries qs r) = Returned tt
         /\ forallb passesb (replay qs (world r)) = true)
        \/ (exists e,
               fst (run_queries qs r) = Raised e
               /\ forallb passesb (replay qs (world r)) = false)).
Proof.
  induction qs as [|q qs IH]; intros r.
  - simpl. rewrite app_nil_r. split; [reflexivity|]. left. split; reflexivity.
  - destruct (run_query_passes q r) as (Hlog & Hw & Hpass).
    unfold run in *. rewrite run_queries_cons. cbn [replay].
    destruct (run_query q r) as [o r1]. simpl in Hlog, Hw, Hpass.
    destruct Hpass as [[-> Hp]|(e & -> & Hp)]; rewrite Hp; simpl.
    + destruct (IH r1) as (Hlog1 & Hret1). rewrite Hw in *.
      rewrite Hlog1, Hlog, <- app_assoc. split; [reflexivity|].
      rewrite Hp. exact Hret1.
    + rewrite Hp. split; [exact Hlog|]. right. eauto.
Qed.

(** [replay] goes through the list in order, and stops early only behind
    a call that does not pass. *)
Lemma replay_shape (qs : list PyVal) :
  forall w,
  exists rest,
    qs = map submitted (replay qs w) ++ rest
    /\ (forallb passesb (replay qs w) = true -> rest = [])
    /\ (forallb passesb (replay qs w) = false ->
        exists front c,
          replay qs w = front ++ [c]
          /\ passesb c = false
          /\ forallb passesb front = true).
Proof.
  induction qs as [|q qs IH]; intros w.
  - exists []. simpl. repeat split; auto. discriminate.
  - cbn [replay].
    destruct (passesb (mkGraphCall q (fst (graph_query w q)))) eqn:Hp.
    + destruct (IH (snd (graph_query w q))) as (rest & Hqs & Hall & Hstop).
      exists rest. simpl. rewrite Hp. simpl. repeat split.
      * congruence.
      * exact Hall.
      * intros Hf. destruct (Hstop Hf) as (front & c & Hr & Hc & Hfront).
        exists (mkGraphCall q (fst (graph_query w q)) :: front), c.
        rewrite Hr. simpl. rewrite Hp. auto.
    + exists qs. simpl. rewrite Hp. simpl. repeat split.
      * discriminate.
      * intros _. exists [], (mkGraphCall q (fst (graph_query w q))). auto.
Qed.


(** C9, as the code has it.  The [for] loop removes no repetition: it
    makes one call for each position of the list, in order, up to the
    first pass that raises.  So a query that failed earlier in the round
    is submitted again exactly when the list holds it again at a later
    position the loop reaches, and never otherwise; the failure of a
    string candidate itself never keeps the loop from reaching the later
    positions. *)
Theorem failed_query_is_resubmitted_only_when_listed_again :
  forall (qs : list PyVal) (r : Run),
    let calls :=
      calls_since (List.length (graph_log r)) (run (run_queries qs) r) in
    calls = replay qs (world r)
    /\ (exists rest,
          qs = map submitted calls ++ rest
          /\ (rest <> [] ->
              exists front c, calls = front ++ [c] /\ passesb c = false))
    /\ (never_resubmits_failed calls
        <-> forall i j ci,
              i < j ->
              j < List.length calls ->
              nth_error calls i = Some ci ->
              failed_call ci ->
              nth_error qs j <> Some (submitted ci))
    /\ (forall c,
          is_str (submitted c) = true -> failed_call c -> passesb c = true)
    /\ (forall i j ci,
          i < j ->
          j < List.length calls ->
          nth_error calls i = Some ci ->
          (nth_error qs j = Some (submitted ci)
           <-> exists cj,
                 nth_error calls j = Some cj
                 /\ submitted cj = submitted ci)).
Proof.
  intros qs r. cbv zeta.
  destruct (run_queries_replay qs r) as (Hlog & _).
  rewrite (@calls_since_app r _ _ Hlog).
  destruct (replay_shape qs (world r)) as (rest & Hqs & Hall & Hstop).
  set (calls := replay qs (world r)) in *.
  assert (Hnth : forall j cj,
             nth_error calls j = Some cj ->
             nth_error qs j = Some (submitted cj)).
  { intros j cj Hj. rewrite Hqs.
    rewrite nth_error_app1
      by (rewrite length_map; apply nth_error_Some; congruence).
    rewrite nth_error_map, Hj. reflexivity. }
  split; [reflexivity|]. split; [|split; [|split]].
  - exists rest. split; [exact Hqs|]. intros Hrest.
    destruct (forallb passesb calls) eqn:Hp.
    + elim Hrest. apply Hall. reflexivity.
    + destruct (Hstop eq_refl) as (front & c & Hc & Hcp & _). eauto.
  - split.
    + intros Hnever i j ci Hij Hj Hi Hfail Hsame.
      destruct (nth_error calls j) as [cj|] eqn:Hcj;
        [|apply nth_error_None in Hcj; lia].
      rewrite (Hnth j cj Hcj) in Hsame. inversion Hsame as [Heq].
      apply (Hnever i j ci cj Hij Hi Hcj Hfail Heq).
    + intros Hlist i j ci cj Hij Hi Hj Hfail Hsame.
      apply (Hlist i j ci Hij); try assumption.
      * apply nth_error_Some. congruence.
      * rewrite (Hnth j cj Hj), Hsame. reflexivity.
  - intros c Hq Hfail. apply passesb_spec. right. auto.
  - intros i j ci Hij Hj Hi.
    destruct (nth_error calls j) as [cj|] eqn:Hcj;
      [|apply nth_error_None in Hcj; lia].
    rewrite (Hnth j cj Hcj). split.
    + intros Hsame. inversion Hsame. exists cj. auto.
    + intros (cj' & Heq & Hsame). inversion Heq; subst cj'.
      rewrite Hsame. reflexivity.
Qed.

(** *** A round *)

Lemma retrieval_round_eq r :
  retrieval_round r
  = match candidates_of r with
    | inl qs => bind (run_queries qs) (fun _ => generate_answer) (asked r)
    | inr e => (Raised e, asked r)
    end.
Proof.
  unfold retrieval_round, candidates_of, asked, generated_text.
  unfold_steps. simpl.
  destruct (llm _ _ _) as [text w]. simpl.
  destruct (literal_eval text) as [v|e]; simpl.
  - destruct (py_iter v); reflexivity.
  - destruct (PyExn_eqb e SyntaxError); reflexivity.
Qed.

Lemma asked_logs r :
  graph_log (asked r) = graph_log r
  /\ List.length (llm_log (asked r)) = S (List.length (llm_log r))
  /\ answer (self (asked r)) = answer (self r).
Proof.
  unfold asked. unfold_steps. simpl.
  destruct (llm _ _ _) as [text w]. simpl.
  rewrite length_app. simpl. repeat split; lia.
Qed.

Lemma generate_answer_logs r :
  fst (generate_answer r) = Returned tt
  /\ graph_log (run generate_answer r) = graph_log r
  /\ List.length (llm_log (run generate_answer r))
     = S (List.length (llm_log r))
  /\ answer (self (run generate_answer r))
     = fst (llm (world r) "You are movie chatbot"
                (base_template (question (self r)) (context (self r))
                               (chat_history (self r)))).
Proof.
  unfold_steps. simpl.
  destruct (llm _ _ _) as [a w]. simpl.
  rewrite length_app. simpl. repeat split; lia.
Qed.

(** The calls of a round are its candidates, in order, up to the first
    pass that raises. *)
Lemma retrieval_round_calls r qs :
  candidates_of r = inl qs ->
  exists rest,
    qs = map submitted
             (calls_since (List.length (graph_log r))
                          (run retrieval_round r))
         ++ rest
    /\ (fst (retrieval_round r) = Returned tt -> rest = []).
Proof.
  intros Hc. unfold run. rewrite retrieval_round_eq, Hc.
  destruct (asked_logs r) as (Hg & _ & _).
  destruct (run_queries_calls qs (asked r))
    as (calls & rest & Hlog & Hqs & Hret & _).
  rewrite Hg in Hlog. unfold run in Hlog. unfold bind.
  destruct (run_queries qs (asked r)) as [[[]|e|] r3] eqn:Hrun;
    simpl in *.
  - exists rest. split; [|intros _; auto].
    destruct (generate_answer_logs r3) as (_ & Hg3 & _).
    fold (run generate_answer r3).
    rewrite (@calls_since_app r _ calls); [exact Hqs|congruence].
  - exists rest. split; [|discriminate].
    rewrite (@calls_since_app r _ calls Hlog). exact Hqs.
  - exists rest. split; [|discriminate].
    rewrite (@calls_since_app r _ calls Hlog). exact Hqs.
Qed.

(** The calls of a round are the calls of its batch. *)
Lemma retrieval_round_replay r qs :
  candidates_of r = inl qs ->
  round_calls r = replay qs (world (asked r)).
Proof.
  intros Hc. unfold round_calls, run. rewrite retrieval_round_eq, Hc.
  destruct (asked_logs r) as (Hg & _).
  destruct (run_queries_replay qs (asked r)) as (Hlog & _).
  rewrite Hg in Hlog. unfold run in Hlog. unfold bind.
  destruct (run_queries qs (asked r)) as [[[]|e|] r3]; simpl in *.
  - destruct (generate_answer_logs r3) as (_ & Hg3 & _).
    fold (run generate_answer r3).
    apply calls_since_app. congruence.
  - apply calls_since_app. exact Hlog.
  - apply calls_since_app. exact Hlog.
Qed.

(** C10. [parse_queries] takes the whole text as the one query exactly
    when [literal_eval] raises a syntax error: any other exception leaves
    it as raised, and a value is returned as it is, list or not.  The
    round then runs its batch over whatever iterating the value gives: a
    quoted string is submitted one character at a time, as queries of
    one character each; a tuple, a set or a list by its items, a dict by
    its keys, bytes by their numbers; a value that cannot be iterated (a
    number, a boolean, [None], [...]) ends the round in [TypeError]
    without a call. *)
Theorem fallback_only_on_syntax_error :
  (forall (text : string) (r : Run),
      literal_eval text = inr SyntaxError ->
      parse_queries text r = (Returned (PyList [PyStr text]), r))
  /\ (forall (text : string) (e : PyExn) (r : Run),
        literal_eval text = inr e ->
        e <> SyntaxError ->
        parse_queries text r = (Raised e, r))
  /\ (forall (text : string) (v : PyVal) (r : Run),
        literal_eval text = inl v ->
        parse_queries text r = (Returned v, r))
  /\ (forall (s : string) (r : Run),
        literal_eval (generated_text r) = inl (PyStr s) ->
        exists rest,
          map PyStr (Str.chars s)
          = map submitted
                (calls_since (List.length (graph_log r))
                             (run retrieval_round r))
            ++ rest
          /\ (fst (retrieval_round r) = Returned tt -> rest = []))
  /\ (forall (r : Run),
        literal_eval (generated_text r) = inr SyntaxError ->
        round_calls r = replay [PyStr (generated_text r)] (world (asked r)))
  /\ (forall (s : string) (r : Run),
        literal_eval (generated_text r) = inl (PyStr s) ->
        round_calls r = replay (map PyStr (Str.chars s)) (world (asked r)))
  /\ (forall (items : list PyVal) (r : Run),
        literal_eval (generated_text r) = inl (PyList items)
        \/ literal_eval (generated_text r) = inl (PyTuple items)
        \/ literal_eval (generated_text r) = inl (PySet items) ->
        round_calls r = replay items (world (asked r)))
  /\ (forall (items : list (PyVal * PyVal)) (r : Run),
        literal_eval (generated_text r) = inl (PyDict items) ->
        round_calls r = replay (map fst items) (world (asked r)))
  /\ (forall (b : list ascii) (r : Run),
        literal_eval (generated_text r) = inl (PyBytes b) ->
        round_calls r
        = replay (map (fun c => PyInt (Z.of_nat (nat_of_ascii c))) b)
                 (world (asked r)))
  /\ (forall (v : PyVal) (r : Run),
        literal_eval (generated_text r) = inl v ->
        match v with
        | PyInt _ | PyFloat _ | PyComplex _ | PyBool _ | PyNone
        | PyEllipsis => True
        | _ => False
        end ->
        retrieval_round r = (Raised TypeError, asked r)
        /\ graph_log (asked r) = graph_log r).
Proof.
  repeat apply conj.
  - intros text r H. unfold_steps. rewrite H. reflexivity.
  - intros text e r H Hne. unfold_steps. rewrite H. simpl.
    destruct (PyExn_eqb e SyntaxError) eqn:He; [|reflexivity].
    apply PyExn_eqb_eq in He. contradiction.
  - intros text v r H. unfold_steps. rewrite H. reflexivity.
  - intros s r H. apply retrieval_round_calls.
    unfold candidates_of. rewrite H. reflexivity.
  - intros r H. apply retrieval_round_replay.
    unfold candidates_of. rewrite H. reflexivity.
  - intros s r H. apply retrieval_round_replay.
    unfold candidates_of. rewrite H. reflexivity.
  - intros items r [H|[H|H]]; apply retrieval_round_replay;
      unfold candidates_of; rewrite H; reflexivity.
  - intros items r H. apply retrieval_round_replay.
    unfold candidates_of. rewrite H. reflexivity.
  - intros b r H. apply retrieval_round_replay.
    unfold candidates_of. rewrite H. reflexivity.
  - intros v r H Hv. split; [|apply asked_logs].
    rewrite retrieval_round_eq. unfold candidates_of. rewrite H.
    destruct v; try contradiction; reflexivity.
Qed.

(** An exception of [literal_eval] that is no syntax error ends the
    round where it was raised. *)
Lemma retrieval_round_raises r e :
  literal_eval (generated_text r) = inr e ->
  e <> SyntaxError ->
  retrieval_round r = (Raised e, asked r).
Proof.
  intros H Hne. rewrite retrieval_round_eq. unfold candidates_of.
  rewrite H. destruct (PyExn_eqb e SyntaxError) eqn:He; [|reflexivity].
  apply PyExn_eqb_eq in He. contradiction.
Qed.

(** *** The question as a whole *)

(** C4. When the first answer to a question does not contain
    "NO_CONTEXT", [ask] returns without a call to the graph, after one
    call to the model; the answer it prints and saves in the history is
    that first answer. *)
Theorem answer_without_marker_needs_no_query :
  forall (fuel : nat) (user_q : string) (r : Run),
    Str.contains "NO_CONTEXT" (first_answer user_q r) = false ->
    fst (ask fuel user_q r) = Returned tt
    /\ graph_log (run (ask fuel user_q) r) = graph_log r
    /\ List.length (llm_log (run (ask fuel user_q) r))
       = S (List.length (llm_log r))
    /\ answer (self (run (ask fuel user_q) r)) = first_answer user_q r
    /\ terminal (run (ask fuel user_q) r)
       = terminal r ++ [Printed ("Bot: " ++ first_answer user_q r ++ nl)]
    /\ chat_history (self (run (ask fuel user_q) r))
       = chat_history (self r)
           ++ [UserTurn user_q []; AssistantTurn (first_answer user_q r)].
Proof.
  intros fuel user_q r H. unfold first_answer in *.
  unfold ask, run. unfold_steps. simpl.
  destruct (llm _ _ _) as [a w]. simpl in *.
  assert (Hloop : forall r1, answer (self r1) = a ->
                             retrieval_loop fuel r1 = (Returned tt, r1)).
  { intros r1 Ha. destruct fuel; simpl; unfold NO_CONTEXT;
      rewrite Ha, H; reflexivity. }
  rewrite Hloop by reflexivity. simpl.
  rewrite length_app. simpl. repeat split; lia.
Qed.

Lemma retrieval_loop_exit fuel :
  forall r r',
    retrieval_loop fuel r = (Returned tt, r') ->
    Str.contains "NO_CONTEXT" (answer (self r')) = false.
Proof.
  induction fuel as [|fuel IH]; intros r r'; simpl;
    destruct (Str.contains NO_CONTEXT (answer (self r))) eqn:Hc;
    intros Heq; try discriminate;
    try (inversion Heq; subst; exact Hc).
  unfold bind in Heq.
  destruct (retrieval_round r) as [[[]|e|] r1]; try discriminate.
  apply (IH r1 r' Heq).
Qed.

Section Persistent.

(** Every answer of the chatbot model reports missing context. *)
Hypothesis always_marker :
  forall w p,
    Str.contains "NO_CONTEXT" (fst (llm w "You are movie chatbot" p))
    = true.

(** Every generated text is a bare query or a list of strings. *)
Hypothesis queries_parse :
  forall text,
    literal_eval text = inr SyntaxError
    \/ exists qs, literal_eval text = inl (PyList (map PyStr qs)).

(** The graph raises nothing but Cypher syntax errors. *)
Hypothesis graph_answers :
  forall w q e, fst (graph_query w q) = inr e -> e = CypherSyntaxError.

Lemma run_queries_returns qs :
  forall r,
    fst (run_queries (map PyStr qs) r) = Returned tt
    /\ llm_log (run (run_queries (map PyStr qs)) r) = llm_log r.
Proof.
  induction qs as [|q qs IH]; intros r; [split; reflexivity|].
  destruct (run_query_pass (PyStr q) r) as (o & b & t & Heq & Hpass).
  unfold run. simpl map. rewrite run_queries_cons, Heq.
  inversion Hpass as [| | |e He Hres| |]; subst;
    try discriminate;
    try (match goal with
         | |- context [run_queries _ ?r1] =>
             destruct (IH r1) as [Hret Hlog]; split;
             [exact Hret | exact Hlog]
         end).
  exfalso. apply He. eapply graph_answers. symmetry. exact Hres.
Qed.

Lemma candidates_are_strings r :
  exists qs, candidates_of r = inl (map PyStr qs).
Proof.
  unfold candidates_of.
  destruct (queries_parse (generated_text r)) as [H|[qs H]]; rewrite H.
  - exists [generated_text r]. reflexivity.
  - exists qs. reflexivity.
Qed.

Lemma retrieval_round_returns r :
  fst (retrieval_round r) = Returned tt
  /\ List.length (llm_log (run retrieval_round r))
     = 2 + List.length (llm_log r)
  /\ Str.contains "NO_CONTEXT" (answer (self (run retrieval_round r)))
     = true.
Proof.
  unfold run. rewrite retrieval_round_eq.
  destruct (candidates_are_strings r) as [qs ->].
  destruct (run_queries_returns qs (asked r)) as [Hret Hlog].
  destruct (asked_logs r) as (_ & Hllm & _).
  unfold run, bind in *.
  destruct (run_queries (map PyStr qs) (asked r)) as [o r3].
  simpl in Hret, Hlog. subst o.
  destruct (generate_answer_logs r3) as (Hok & _ & Hlen & Hans).
  unfold run in *. repeat split.
  - exact Hok.
  - rewrite Hlen, Hlog, Hllm. reflexivity.
  - rewrite Hans. apply always_marker.
Qed.

Lemma retrieval_loop_starves fuel :
  forall r,
    Str.contains "NO_CONTEXT" (answer (self r)) = true ->
    fst (retrieval_loop fuel r) = Starved
    /\ List.length (llm_log (run (retrieval_loop fuel) r))
       = List.length (llm_log r) + 2 * fuel.
Proof.
  induction fuel as [|fuel IH]; intros r Hc; unfold run; simpl;
    unfold NO_CONTEXT; rewrite Hc.
  - simpl. split; [reflexivity|lia].
  - destruct (retrieval_round_returns r) as (Hret & Hlen & Hc').
    unfold run, bind in *.
    destruct (retrieval_round r) as [o r1]. simpl in *. subst o.
    destruct (IH r1 Hc') as [Hs Hl]. unfold run in Hl.
    split; [exact Hs|]. rewrite Hl, Hlen. lia.
Qed.

Lemma ask_starves fuel user_q r :
  fst (ask fuel user_q r) = Starved
  /\ List.length (llm_log (run (ask fuel user_q) r))
     = List.length (llm_log r) + 1 + 2 * fuel.
Proof.
  unfold run. rewrite ask_resolve. unfold resolve, bind. simpl.
  match goal with
  | |- context [generate_answer ?r0] =>
      destruct (generate_answer_logs r0) as (Hok & _ & Hlen & Hans);
      unfold run in *; destruct (generate_answer r0) as [o r1]
  end.
  simpl in *. subst o.
  assert (Hc : Str.contains "NO_CONTEXT" (answer (self r1)) = true)
    by (rewrite Hans; apply always_marker).
  destruct (retrieval_loop_starves fuel r1 Hc) as [Hs Hl].
  unfold run in Hl.
  destruct (retrieval_loop fuel r1) as [o r2]. simpl in *. subst o.
  simpl. split; [reflexivity|]. rewrite Hl, Hlen. lia.
Qed.

End Persistent.

(** C6. The retrieval loop returns only when the latest answer does not
    contain "NO_CONTEXT", and so does [ask]; the program has no bound on
    the rounds.  When every answer of the model contains the marker
    (and no round raises: the generated texts are bare queries or lists
    of strings, the graph raises nothing but syntax errors), the loop is
    still running after any number of rounds: whatever the fuel, [ask]
    uses it up, with two more calls to the model for each round. *)
Theorem loop_ends_only_without_marker :
  (forall (fuel : nat) (r r' : Run),
      retrieval_loop fuel r = (Returned tt, r') ->
      Str.contains "NO_CONTEXT" (answer (self r')) = false)
  /\ (forall (fuel : nat) (user_q : string) (r r' : Run),
        ask fuel user_q r = (Returned tt, r') ->
        Str.contains "NO_CONTEXT" (answer (self r')) = false)
  /\ ((forall w p,
          Str.contains "NO_CONTEXT" (fst (llm w "You are movie chatbot" p))
          = true) ->
      (forall text,
          literal_eval text = inr SyntaxError
          \/ exists qs, literal_eval text = inl (PyList (map PyStr qs))) ->
      (forall w q e,
          fst (graph_query w q) = inr e -> e = CypherSyntaxError) ->
      forall (fuel : nat) (user_q : string) (r : Run),
        fst (ask fuel user_q r) = Starved
        /\ List.length (llm_log (run (ask fuel user_q) r))
           = List.length (llm_log r) + 1 + 2 * fuel).
Proof.
  repeat apply conj.
  - intros fuel r r'. apply retrieval_loop_exit.
  - intros fuel user_q r r' Heq. rewrite ask_resolve in Heq.
    unfold resolve, bind in Heq. simpl in Heq.
    destruct (generate_answer _) as [[[]|e|] r1]; try discriminate.
    destruct (retrieval_loop fuel r1) as [[[]|e|] r2] eqn:Hloop;
      try discriminate.
    inversion Heq; subst. simpl.
    apply (retrieval_loop_exit _ _ Hloop).
  - intros Hm Hl Hg fuel user_q r. apply ask_starves; assumption.
Qed.

(** *** From one question to the next *)

(** The first answer always returns, so [resolve] is the loop run on
    the state the first answer leaves. *)
Lemma resolve_eq fuel user_q r :
  resolve fuel user_q r
  = retrieval_loop fuel
      (run generate_answer (run (update (begin_question user_q)) r)).
Proof.
  unfold resolve, bind.
  change (update (begin_question user_q) r)
    with (Returned tt, run (update (begin_question user_q)) r).
  cbv iota beta.
  set (r0 := run (update (begin_question user_q)) r).
  destruct (generate_answer_logs r0) as (Hok & _).
  unfold run at 1. destruct (generate_answer r0) as [o ra].
  simpl in *. subst o. reflexivity.
Qed.

(** A round overwrites [_rag_question] before anything reads it, so two
    runs that differ in it alone go through the same round. *)
Lemma retrieval_round_scrub ra rb :
  scrub ra = scrub rb -> retrieval_round ra = retrieval_round rb.
Proof.
  destruct ra as [[h1 rq1 q1 a1 c1 p1 u1] w1 i1 t1 l1 g1].
  destruct rb as [[h2 rq2 q2 a2 c2 p2 u2] w2 i2 t2 l2 g2].
  unfold scrub. simpl. intros H. inversion H; subst. reflexivity.
Qed.

Lemma retrieval_loop_scrub fuel ra rb :
  scrub ra = scrub rb ->
  fst (retrieval_loop fuel ra) = fst (retrieval_loop fuel rb)
  /\ scrub (run (retrieval_loop fuel) ra)
     = scrub (run (retrieval_loop fuel) rb).
Proof.
  intros H.
  assert (Ha : answer (self ra) = answer (self rb)).
  { destruct ra as [[] ? ? ? ? ?], rb as [[] ? ? ? ? ?].
    unfold scrub in H. simpl in *. inversion H; subst. reflexivity. }
  unfold run.
  destruct fuel as [|fuel]; simpl; rewrite Ha;
    destruct (Str.contains NO_CONTEXT (answer (self rb)));
    simpl; auto.
  unfold bind. rewrite (retrieval_round_scrub H).
  destruct (retrieval_round rb) as [[[]|e|] r1]; auto.
Qed.

Lemma conclude_scrub ra rb :
  scrub ra = scrub rb -> scrub (conclude ra) = scrub (conclude rb).
Proof.
  destruct ra as [[h1 rq1 q1 a1 c1 p1 u1] w1 i1 t1 l1 g1].
  destruct rb as [[h2 rq2 q2 a2 c2 p2 u2] w2 i2 t2 l2 g2].
  unfold scrub, conclude. simpl. intros H. inversion H; subst. reflexivity.
Qed.

Lemma first_answer_scrub user_q r1 r2 :
  same_session r1 r2 ->
  scrub (run generate_answer (run (update (begin_question user_q)) r1))
  = scrub (run generate_answer (run (update (begin_question user_q)) r2)).
Proof.
  destruct r1 as [[h1 rq1 q1 a1 c1 p1 u1] w1 i1 t1 l1 g1].
  destruct r2 as [[h2 rq2 q2 a2 c2 p2 u2] w2 i2 t2 l2 g2].
  unfold same_session. simpl. intros (Hh & Hw & Hi & Ht & Hl & Hg). subst.
  unfold_steps. simpl. destruct (llm _ _ _) as [a w]. reflexivity.
Qed.

(** C7, as the code has it.  The assignments that open a question give
    [_question] its new value and empty [_context], [_previous_queries]
    and [_used_queries]; they leave [_rag_question] as the question
    before left it.  Every round assigns [_rag_question] from the latest
    answer before the query generation reads it, so the value carried
    over is never used: how [ask] ends, and everything it leaves behind
    but [_rag_question] itself, is the same whatever the retrieval state
    was before. *)
Theorem question_resets_all_but_rag_question :
  (forall (user_q : string) (b : MovieChatBot),
      question (begin_question user_q b) = user_q
      /\ context (begin_question user_q b) = []
      /\ previous_queries (begin_question user_q b) = []
      /\ used_queries (begin_question user_q b) = []
      /\ rag_question (begin_question user_q b) = rag_question b)
  /\ (forall r : Run,
        rag_question (self (asked r)) = followup_of (answer (self r)))
  /\ (forall (fuel : nat) (user_q : string) (r1 r2 : Run),
        same_session r1 r2 ->
        fst (ask fuel user_q r1) = fst (ask fuel user_q r2)
        /\ scrub (run (ask fuel user_q) r1)
           = scrub (run (ask fuel user_q) r2)).
Proof.
  repeat apply conj.
  - intros user_q b. repeat split.
  - intros r. unfold asked. unfold_steps. simpl.
    destruct (llm _ _ _) as [text w]. reflexivity.
  - intros fuel user_q r1 r2 Hs.
    pose proof (first_answer_scrub user_q Hs) as H0.
    unfold run. rewrite !ask_resolve, !resolve_eq.
    set (ra := run generate_answer
                   (run (update (begin_question user_q)) r1)) in *.
    set (rb := run generate_answer
                   (run (update (begin_question user_q)) r2)) in *.
    destruct (retrieval_loop_scrub fuel H0) as [Hf Hr].
    unfold run in Hr.
    destruct (retrieval_loop fuel _) as [[[]|e1|] ra'];
      destruct (retrieval_loop fuel _) as [[[]|e2|] rb'];
      simpl in *; try discriminate; try (split; congruence).
    split; [reflexivity|]. apply conclude_scrub. exact Hr.
Qed.

(** C8. After [restart], a question that [ask] brings to its end leaves
    a history of exactly one exchange, the question with its context
    and the answer, whatever the history held before.  [restart] empties
    the history and every other state variable, and a second [restart]
    changes nothing. *)
Theorem restart_then_ask_leaves_one_exchange :
  (forall (fuel : nat) (user_q : string) (r r' : Run),
      ask fuel user_q (run (update restart) r) = (Returned tt, r') ->
      chat_history (self r')
      = [UserTurn user_q (context (self r'));
         AssistantTurn (answer (self r'))])
  /\ (forall b : MovieChatBot,
        chat_history (restart b) = [] /\ restart b = init)
  /\ (forall b : MovieChatBot, restart (restart b) = restart b).
Proof.
  repeat apply conj.
  - intros fuel user_q r r' Heq.
    set (r0 := run (update restart) r) in *.
    destruct (reachable_history (reachable_resolve fuel user_q r0))
      as [Hh Hq].
    destruct (ask_run fuel user_q r0) as [(_ & _ & Hrun)|(Hne & _)].
    + unfold run in Hrun at 1. rewrite Heq in Hrun. simpl in Hrun.
      subst r'. simpl. rewrite Hh, Hq. reflexivity.
    + rewrite Heq in Hne. contradiction.
  - intros b. split; reflexivity.
  - intros b. reflexivity.
Qed.

End Facts.

(** ** The sample collaborators at work *)

Import Sample.

(** The string operations on the texts of the examples. *)
Example split_at_the_marker :
  Str.split "NO_CONTEXT" "a NO_CONTEXT b NO_CONTEXT  c "
  = ["a "; " b "; "  c "]
  /\ Str.split "NO_CONTEXT" "NO_CONTEXT" = [""; ""]
  /\ Str.split "NO_CONTEXT" "no marker" = ["no marker"].
Proof. repeat split. Qed.

Example followup_of_the_first_answer :
  followup_of "NO_CONTEXT Who directed the movie Inception?"
  = "Who directed the movie Inception?".
Proof. reflexivity. Qed.

Example strip_and_lower :
  Str.strip (" [] " ++ nl) = "[]" /\ Str.lower "ReStart" = "restart".
Proof. split; reflexivity. Qed.

(** The scenario of one retrieval round: the context is appended and the
    second answer ends the loop. *)
Example inception_in_one_round :
  let r := run (E := scripted) (ask 3 "Who directed Inception?")
               (fresh inception_script) in
  fst (ask (E := scripted) 3 "Who directed Inception?" (fresh inception_script))
  = Returned tt
  /\ context (self r) = [inception_rows]
  /\ used_queries (self r) = [PyStr inception_query]
  /\ previous_queries (self r) = []
  /\ List.length (graph_log r) = 1
  /\ chat_history (self r)
     = [UserTurn "Who directed Inception?" [inception_rows];
        AssistantTurn "Christopher Nolan directed Inception."].
Proof. vm_compute. repeat split. Qed.

(** The scenario of a bare query: the text is no Python literal, and the
    parser makes a list of one query of it. *)
Example bare_query_is_one_candidate :
  parse_queries (E := scripted) "MATCH (n) RETURN n LIMIT 1" (fresh [])
  = (Returned (PyList [PyStr "MATCH (n) RETURN n LIMIT 1"]), fresh []).
Proof. reflexivity. Qed.

(** A session at the terminal: a question, a restart in capitals, and
    [Quit]; the line after it stays unread.  At the end of the input,
    [input] raises [EOFError]. *)
Example chat_until_quit :
  let r := mkRun (E := scripted) init ["Hello!"]
                 ["Hi"; "ReStart"; "Quit"; "unread"] [] [] [] in
  fst (chat (E := scripted) 3 r) = Returned tt
  /\ stdin (run (E := scripted) (chat 3) r) = ["unread"]
  /\ self (run (E := scripted) (chat 3) r) = init
  /\ List.length (llm_log (run (E := scripted) (chat 3) r)) = 1
  /\ fst (chat (E := scripted) 3 (fresh [])) = Raised EOFError.
Proof. vm_compute. repeat split. Qed.

(** C2. The model answers the request for queries with the bare name
    [UNKNOWN].  [literal_eval] raises [ValueError] on it, which the
    [except SyntaxError] of line 157 does not catch: instead of taking the
    text as one query, [ask] ends with the exception, before any call to
    the graph, and neither prints nor saves an answer. *)
Theorem bare_name_reply_raises_ValueError :
  let r := fresh ["NO_CONTEXT x"; "UNKNOWN"; "never asked for"] in
  @literal_eval scripted "UNKNOWN" = inr ValueError
  /\ fst (ask (E := scripted) 3 "q" r) = Raised ValueError
  /\ graph_log (run (E := scripted) (ask 3 "q") r) = []
  /\ terminal (run (E := scripted) (ask 3 "q") r) = []
  /\ chat_history (self (run (E := scripted) (ask 3 "q") r)) = [].
Proof. vm_compute. repeat split. Qed.

(** C7, as stated, fails: the question "Hi" needs no retrieval, and both
    after its opening assignments and when it is over [_rag_question]
    still holds the follow-up of the Inception question before it. *)
Lemma rag_question_survives_the_next_question :
  rag_question (self after_inception) = "Who directed the movie Inception?"
  /\ rag_question (begin_question "Hi" (self after_inception))
     = "Who directed the movie Inception?"
  /\ rag_question (self (run (E := scripted) (ask 3 "Hi") after_inception))
     = "Who directed the movie Inception?"
  /\ ~ retrieval_state_reset "Hi" (begin_question "Hi" (self after_inception)).
Proof.
  repeat split; try (vm_compute; reflexivity).
  intros (_ & Hrag & _). vm_compute in Hrag. discriminate.
Qed.

(** C9, as stated, fails: when the generated list holds the query [X]
    twice, the round submits [X] again after its syntax error. *)
Lemma failed_query_is_resubmitted_in_the_round :
  ~ @round_never_resubmits scripted.
Proof.
  intros H.
  apply (H (awaiting "q" ["NO_CONTEXT x"; "['X', 'X']"; "done"]) 0 1
           (mkGraphCall (PyStr "X") (inr CypherSyntaxError))
           (mkGraphCall (PyStr "X") (inr CypherSyntaxError))).
  - lia.
  - reflexivity.
  - reflexivity.
  - left. reflexivity.
  - reflexivity.
Qed.



(** ** The theorems at the sample collaborators *)



(** A query that succeeded twice before a failure, a failed query listed
    again behind the query that ends the loop, and a failed query listed
    twice in a row. *)
Lemma failed_query_is_resubmitted_only_when_listed_again_witness :
  never_resubmits_failed
    (calls_since 0
       (run (E := Cases.scripted_more)
            (run_queries
               [PyStr inception_query; PyStr inception_query; PyStr "X"])
            (Cases.fresh_more [])))
  /\ never_resubmits_failed
       (calls_since 0
          (run (E := Cases.scripted_more)
               (run_queries [PyStr "X"; PyStr "DOWN"; PyStr "X"])
               (Cases.fresh_more [])))
  /\ ~ never_resubmits_failed
         (calls_since 0
            (run (E := Cases.scripted_more)
                 (run_queries [PyStr "X"; PyStr "X"])
                 (Cases.fresh_more [])))
  /\ (exists cj,
         nth_error
           (calls_since 0
              (run (E := Cases.scripted_more)
                   (run_queries [PyStr "X"; PyStr "X"])
                   (Cases.fresh_more [])))
           1
         = Some cj
         /\ submitted cj = PyStr "X").
Proof.
  refine (conj _ (conj _ (conj _ _))).
  - destruct (@failed_query_is_resubmitted_only_when_listed_again
                Cases.scripted_more
                [PyStr inception_query; PyStr inception_query; PyStr "X"]
                (Cases.fresh_more []))
      as (_ & _ & [_ Hlisted] & _).
    apply Hlisted. intros i j ci Hij Hj Hi Hfail.
    vm_compute in Hj.
    destruct j as [|[|[|j]]]; try lia;
      destruct i as [|[|i]]; try lia;
      vm_compute in Hi; inversion Hi; subst ci;
      try (vm_compute; discriminate);
      destruct Hfail as [Hf|(rows & Hf & Hrows)];
      try discriminate;
      inversion Hf; subst rows; vm_compute in Hrows; discriminate.
  - destruct (@failed_query_is_resubmitted_only_when_listed_again
                Cases.scripted_more
                [PyStr "X"; PyStr "DOWN"; PyStr "X"]
                (Cases.fresh_more []))
      as (_ & _ & [_ Hlisted] & _).
    apply Hlisted. intros i j ci Hij Hj Hi Hfail.
    vm_compute in Hj.
    destruct j as [|[|j]]; try lia;
      destruct i as [|i]; try lia.
    vm_compute in Hi. inversion Hi; subst ci.
    vm_compute. discriminate.
  - destruct (@failed_query_is_resubmitted_only_when_listed_again
                Cases.scripted_more
                [PyStr "X"; PyStr "X"]
                (Cases.fresh_more []))
      as (_ & _ & [Hnever _] & _).
    intros H.
    apply (Hnever H 0 1 (mkGraphCall (PyStr "X") (inr CypherSyntaxError))).
    + lia.
    + vm_compute. lia.
    + reflexivity.
    + left. reflexivity.
    + reflexivity.
  - destruct (@failed_query_is_resubmitted_only_when_listed_again
                Cases.scripted_more
                [PyStr "X"; PyStr "X"]
                (Cases.fresh_more []))
      as (_ & _ & _ & _ & Hat).
    apply (Hat 0 1 (mkGraphCall (PyStr "X") (inr CypherSyntaxError)));
      [lia | vm_compute; lia | reflexivity | reflexivity].
Defined.

(** A bare query, a bare name and a quoted string; then the rounds of a
    tuple, a dict, a set, bytes and [None]. *)
Lemma fallback_only_on_syntax_error_witness :
  parse_queries (E := scripted) "MATCH (n) RETURN n LIMIT 1" (fresh [])
  = (Returned (PyList [PyStr "MATCH (n) RETURN n LIMIT 1"]), fresh [])
  /\ parse_queries (E := scripted) "UNKNOWN" (fresh [])
     = (Raised ValueError, fresh [])
  /\ parse_queries (E := scripted) "'ab'" (fresh [])
     = (Returned (PyStr "ab"), fresh [])
  /\ map submitted
         (calls_since 0
            (run (E := scripted) retrieval_round
                 (awaiting "q" ["NO_CONTEXT x"; "'ab'"; "done"])))
     = [PyStr "a"; PyStr "b"]
  /\ round_calls (E := scripted)
                 (awaiting "q" ["NO_CONTEXT x"; "MATCH (n) RETURN n"; "done"])
     = [mkGraphCall (PyStr "MATCH (n) RETURN n") (inr CypherSyntaxError)]
  /\ round_calls (E := scripted)
                 (awaiting "q" ["NO_CONTEXT x"; "'ab'"; "done"])
     = [mkGraphCall (PyStr "a") (inr CypherSyntaxError);
        mkGraphCall (PyStr "b") (inr CypherSyntaxError)]
  /\ (round_calls (E := Untyped.mixed)
                  (Untyped.awaiting_mixed
                     "q" ["NO_CONTEXT x"; "('X', 'Y')"; "done"])
      = [mkGraphCall (PyStr "X") (inr CypherSyntaxError);
         mkGraphCall (PyStr "Y") (inr CypherSyntaxError)]
      /\ round_calls (E := Untyped.mixed)
                     (Untyped.awaiting_mixed
                        "q" ["NO_CONTEXT x"; "{'X'}"; "done"])
         = [mkGraphCall (PyStr "X") (inr CypherSyntaxError)]
      /\ round_calls (E := Untyped.mixed)
                     (Untyped.awaiting_mixed
                        "q" ["NO_CONTEXT x"; "['X', 'DOWN', 'X']"; "done"])
         = [mkGraphCall (PyStr "X") (inr CypherSyntaxError);
            mkGraphCall (PyStr "DOWN")
                        (inr (OtherError "ServiceUnavailable"))])
  /\ round_calls (E := Untyped.mixed)
                 (Untyped.awaiting_mixed
                    "q" ["NO_CONTEXT x"; "{'X': 1, 'Y': 2}"; "done"])
     = [mkGraphCall (PyStr "X") (inr CypherSyntaxError);
        mkGraphCall (PyStr "Y") (inr CypherSyntaxError)]
  /\ round_calls (E := Untyped.mixed)
                 (Untyped.awaiting_mixed
                    "q" ["NO_CONTEXT x"; "b'ab'"; "done"])
     = [mkGraphCall (PyInt 97) (inl "[]")]
  /\ (fst (retrieval_round (E := Untyped.mixed)
                           (Untyped.awaiting_mixed
                              "q" ["NO_CONTEXT x"; "None"; "done"]))
      = Raised TypeError
      /\ graph_log (run (E := Untyped.mixed) retrieval_round
                        (Untyped.awaiting_mixed
                           "q" ["NO_CONTEXT x"; "None"; "done"]))
         = []).
Proof.
  destruct (@fallback_only_on_syntax_error scripted)
    as (Hsyntax & Hother & Hvalue & Hchars & Hwhole & Hstr & _).
  destruct (@fallback_only_on_syntax_error Untyped.mixed)
    as (_ & _ & _ & _ & _ & _ & Hitems & Hkeys & Hbytes & Hnone).
  refine (conj _ (conj _ (conj _ (conj _ (conj _ (conj _ (conj _ (conj _
            (conj _ _))))))))).
  - apply Hsyntax. reflexivity.
  - apply Hother; [reflexivity | discriminate].
  - apply Hvalue. reflexivity.
  - destruct (Hchars "ab" (awaiting "q" ["NO_CONTEXT x"; "'ab'"; "done"]))
      as (rest & Hmap & Hrest).
    + reflexivity.
    + rewrite (Hrest eq_refl), app_nil_r in Hmap. symmetry. exact Hmap.
  - rewrite (Hwhole
               (awaiting "q" ["NO_CONTEXT x"; "MATCH (n) RETURN n"; "done"])
               eq_refl).
    reflexivity.
  - rewrite (Hstr "ab" (awaiting "q" ["NO_CONTEXT x"; "'ab'"; "done"])
                  eq_refl).
    reflexivity.
  - refine (conj _ (conj _ _)).
    + rewrite (Hitems [PyStr "X"; PyStr "Y"]
                      (Untyped.awaiting_mixed
                         "q" ["NO_CONTEXT x"; "('X', 'Y')"; "done"])
                      (or_intror (or_introl eq_refl))).
      reflexivity.
    + rewrite (Hitems [PyStr "X"]
                      (Untyped.awaiting_mixed
                         "q" ["NO_CONTEXT x"; "{'X'}"; "done"])
                      (or_intror (or_intror eq_refl))).
      reflexivity.
    + rewrite (Hitems [PyStr "X"; PyStr "DOWN"; PyStr "X"]
                      (Untyped.awaiting_mixed
                         "q" ["NO_CONTEXT x"; "['X', 'DOWN', 'X']"; "done"])
                      (or_introl eq_refl)).
      reflexivity.
  - rewrite (Hkeys [(PyStr "X", PyInt 1); (PyStr "Y", PyInt 2)]
                   (Untyped.awaiting_mixed
                      "q" ["NO_CONTEXT x"; "{'X': 1, 'Y': 2}"; "done"])
                   eq_refl).
    reflexivity.
  - rewrite (Hbytes [ascii_of_nat 97; ascii_of_nat 98]
                    (Untyped.awaiting_mixed
                       "q" ["NO_CONTEXT x"; "b'ab'"; "done"])
                    eq_refl).
    reflexivity.
  - destruct (Hnone PyNone
                    (Untyped.awaiting_mixed
                       "q" ["NO_CONTEXT x"; "None"; "done"])
                    eq_refl I)
      as (Hround & Hlog).
    unfold run. rewrite Hround. split; [reflexivity | exact Hlog].
Defined.

(** The pairing after the reset and after the Inception question. *)
Lemma context_is_paired_with_used_queries_witness :
  paired 0 (run (E := scripted) (update (begin_question "q")) (fresh []))
  /\ paired 0 (run (E := scripted) (ask 3 "Who directed Inception?")
                   (fresh inception_script)).
Proof.
  destruct (@context_is_paired_with_used_queries scripted "q" (fresh []))
    as [Hstates _].
  destruct (@context_is_paired_with_used_queries
              scripted "Who directed Inception?" (fresh inception_script))
    as [_ Hask].
  split.
  - apply Hstates. apply reach_reset.
  - apply (Hask 3).
Defined.

(** A greeting is answered at once. *)
Lemma answer_without_marker_needs_no_query_witness :
  fst (ask (E := scripted) 3 "Hi" (fresh ["Hello!"])) = Returned tt
  /\ graph_log (run (E := scripted) (ask 3 "Hi") (fresh ["Hello!"])) = []
  /\ answer (self (run (E := scripted) (ask 3 "Hi") (fresh ["Hello!"])))
     = "Hello!".
Proof.
  destruct (@answer_without_marker_needs_no_query
              scripted 3 "Hi" (fresh ["Hello!"]))
    as (Hret & Hlog & _ & Hans & _).
  - reflexivity.
  - repeat split; assumption.
Defined.

(** The Inception question ends without the marker; the stubborn model
    uses up seven rounds. *)
Lemma loop_ends_only_without_marker_witness :
  Str.contains "NO_CONTEXT"
    (answer (self (run (E := scripted) (retrieval_loop 3)
                       (awaiting "Who directed Inception?"
                                 inception_script))))
  = false
  /\ Str.contains "NO_CONTEXT"
       (answer (self (run (E := scripted) (ask 3 "Who directed Inception?")
                          (fresh inception_script))))
     = false
  /\ fst (ask (E := stubborn) 7 "q" fresh_stubborn) = Starved
  /\ List.length (llm_log (run (E := stubborn) (ask 7 "q") fresh_stubborn))
     = 15.
Proof.
  destruct (@loop_ends_only_without_marker scripted) as (Hloop & Hask & _).
  destruct (@loop_ends_only_without_marker stubborn) as (_ & _ & Hstarve).
  split; [|split].
  - apply (Hloop 3 (awaiting "Who directed Inception?" inception_script)).
    vm_compute. reflexivity.
  - apply (Hask 3 "Who directed Inception?" (fresh inception_script)).
    vm_compute. reflexivity.
  - apply (Hstarve
             (fun _ _ => eq_refl)
             (fun _ => or_introl eq_refl)
             (fun w q e H => match H in _ = x return
                                   match x with
                                   | inl _ => True
                                   | inr e' => e' = CypherSyntaxError
                                   end
                             with eq_refl => I end)
             7 "q" fresh_stubborn).
Defined.

(** A leftover retrieval state changes nothing but [_rag_question]. *)
Lemma question_resets_all_but_rag_question_witness :
  fst (ask (E := scripted) 3 "Hi" leftover)
  = fst (ask (E := scripted) 3 "Hi" (fresh ["Hello!"]))
  /\ scrub (run (E := scripted) (ask 3 "Hi") leftover)
     = scrub (run (E := scripted) (ask 3 "Hi") (fresh ["Hello!"])).
Proof.
  destruct (@question_resets_all_but_rag_question scripted)
    as (_ & _ & Hsame).
  apply (Hsame 3 "Hi" leftover (fresh ["Hello!"])).
  repeat split.
Defined.

(** One exchange after a restart that followed another exchange. *)
Lemma restart_then_ask_leaves_one_exchange_witness :
  List.length (chat_history (self after_inception)) = 2
  /\ chat_history
       (self (run (E := scripted) (ask 3 "Hi")
                  (run (E := scripted) (update restart) after_inception)))
     = [UserTurn "Hi" []; AssistantTurn "Hello!"].
Proof.
  split; [reflexivity|].
  destruct (@restart_then_ask_leaves_one_exchange scripted) as (Hone & _).
  rewrite (Hone 3 "Hi" after_inception
                (run (E := scripted) (ask 3 "Hi")
                     (run (E := scripted) (update restart) after_inception))).
  - reflexivity.
  - vm_compute. reflexivity.
Defined.

(** ** The question and its logs *)

Section QuestionFacts.

Context {E : Outside}.

Ltac open_steps :=
  unfold opened, asked, run, generate_answer, generate_cypher_query,
    generate_chat_anserw, bind, ret, update, print, emit, get_self in *.

(** *** What a pass leaves alone *)

Lemma run_query_frame (q : PyVal) (r : Run) :
  stdin (run (run_query q) r) = stdin r
  /\ llm_log (run (run_query q) r) = llm_log r
  /\ chat_history (self (run (run_query q) r)) = chat_history (self r)
  /\ question (self (run (run_query q) r)) = question (self r)
  /\ answer (self (run (run_query q) r)) = answer (self r).
Proof.
  destruct (run_query_pass q r) as (o & b & t & Heq & Hpass).
  unfold run. rewrite Heq. simpl.
  inversion Hpass; subst; repeat split.
Qed.

Lemma opened_frame (user_q : string) (r : Run) :
  graph_log (opened user_q r) = graph_log r
  /\ terminal (opened user_q r) = terminal r
  /\ stdin (opened user_q r) = stdin r
  /\ chat_history (self (opened user_q r)) = chat_history (self r)
  /\ answer (self (opened user_q r)) = first_answer user_q r
  /\ llm_log (opened user_q r)
     = llm_log r
         ++ [mkLlmCall "You are movie chatbot"
                       (base_template user_q [] (chat_history (self r)))
                       (first_answer user_q r)].
Proof.
  unfold first_answer. open_steps. simpl.
  destruct (llm _ _ _) as [a w]. repeat split.
Qed.

Lemma asked_frame (r : Run) :
  terminal (asked r) = terminal r
  /\ stdin (asked r) = stdin r
  /\ chat_history (self (asked r)) = chat_history (self r)
  /\ context (self (asked r)) = context (self r)
  /\ previous_queries (self (asked r)) = previous_queries (self r)
  /\ used_queries (self (asked r)) = used_queries (self r).
Proof.
  open_steps. simpl. destruct (llm _ _ _) as [text w]. repeat split.
Qed.

Lemma reachable_frame user_q r0 r :
  reachable user_q r0 r -> stdin r = stdin r0.
Proof.
  induction 1 as [|r Hr IH|r v Hr IH|r Hr IH|r q Hr IH].
  - reflexivity.
  - open_steps. destruct (llm _ _ _) as [a w]. exact IH.
  - exact IH.
  - open_steps. destruct (llm _ _ _) as [a w]. exact IH.
  - destruct (run_query_frame q r) as (Hs & _). congruence.
Qed.

Lemma map_snd_combine {A B} (l : list A) (l' : list B) :
  List.length l = List.length l' -> map snd (combine l l') = l'.
Proof.
  revert l'. induction l as [|a l IH]; intros [|b l'] H; simpl in *;
    try discriminate; [reflexivity|].
  rewrite IH by congruence. reflexivity.
Qed.

(** *** The answer is the last reply *)

Lemma generate_answer_just_answered r : just_answered (run generate_answer r).
Proof.
  open_steps. simpl. destruct (llm _ _ _) as [a w]. simpl.
  eexists _, _. repeat split.
Qed.

Lemma retrieval_round_just_answered r :
  fst (retrieval_round r) = Returned tt ->
  just_answered (run retrieval_round r).
Proof.
  unfold run. rewrite retrieval_round_eq.
  destruct (candidates_of r) as [qs|e]; [|discriminate].
  unfold bind. destruct (run_queries qs (asked r)) as [[[]|e|] r3];
    try discriminate.
  intros _. apply generate_answer_just_answered.
Qed.

Lemma retrieval_loop_just_answered fuel :
  forall r,
    just_answered r ->
    fst (retrieval_loop fuel r) = Returned tt ->
    just_answered (run (retrieval_loop fuel) r).
Proof.
  induction fuel as [|fuel IH]; intros r Hj; unfold run; simpl;
    destruct (Str.contains NO_CONTEXT (answer (self r)));
    try discriminate; try (intros _; exact Hj).
  pose proof (retrieval_round_just_answered r) as Hround.
  unfold bind, run in *.
  destruct (retrieval_round r) as [[[]|e|] r1]; try discriminate.
  intros Hret. apply IH; [apply Hround; reflexivity | exact Hret].
Qed.

(** X1. A question that [ask] brings to its end adds exactly one exchange
    to the history, after what was there: the user entry holds the
    question and, as its context, the rows of the calls that succeeded
    during the question, in order; the assistant entry holds the reply to
    the last request made to the model, as it came.  A question that ends
    in an exception leaves the history as it was. *)
Theorem ask_saves_one_exchange_or_nothing :
  forall (fuel : nat) (user_q : string) (r : Run),
    (fst (ask fuel user_q r) = Returned tt ->
     exists calls c,
       llm_log (run (ask fuel user_q) r) = calls ++ [c]
       /\ system_prompt c = "You are movie chatbot"
       /\ chat_history (self (run (ask fuel user_q) r))
          = chat_history (self r)
              ++ [UserTurn user_q
                    (map snd
                         (successes
                            (calls_since (List.length (graph_log r))
                                         (run (ask fuel user_q) r))));
                  AssistantTurn (reply c)])
    /\ (fst (ask fuel user_q r) <> Returned tt ->
        chat_history (self (run (ask fuel user_q) r))
        = chat_history (self r)).
Proof.
  intros fuel user_q r.
  pose proof (reachable_resolve fuel user_q r) as Hreach.
  destruct (reachable_history Hreach) as [Hh Hq].
  destruct (reachable_paired Hreach) as [_ [Hlen Hcomb]].
  destruct (ask_run fuel user_q r)
    as [(Hret & Hres & Hrun)|(Hne & _ & Hrun)]; rewrite Hrun; split;
    try contradiction; try (intros _; exact Hh).
  intros _.
  assert (Hj : just_answered (run (resolve fuel user_q) r)).
  { unfold run in *. rewrite resolve_eq in *.
    apply retrieval_loop_just_answered; [|exact Hres].
    apply generate_answer_just_answered. }
  destruct Hj as (calls & c & Hlog & Hans & Hsys).
  exists calls, c. repeat split; [exact Hlog | exact Hsys |].
  unfold conclude. simpl. rewrite Hh, Hq, <- Hans. do 3 f_equal.
  unfold calls_since in *. simpl. rewrite <- Hcomb.
  symmetry. apply map_snd_combine. symmetry. exact Hlen.
Qed.

(** *** Nothing recorded is dropped *)

Lemma grown_refl r : grown r r.
Proof. repeat split; exists []; rewrite app_nil_r; reflexivity. Qed.

Lemma grown_run_query r q : preserves (grown r) (run_query q).
Proof.
  intros r1 (Hp & Hu & Hc).
  destruct (run_query_pass q r1) as (o & b & t & Heq & Hpass).
  unfold run. rewrite Heq. unfold grown. simpl.
  destruct Hp as [mp Hp], Hu as [mu Hu], Hc as [mc Hc].
  inversion Hpass; subst; simpl; rewrite ?Hp, ?Hu, ?Hc, <- ?app_assoc;
    repeat split; eauto.
Qed.

Lemma grown_retrieval_round r : preserves (grown r) retrieval_round.
Proof.
  apply preserves_retrieval_round.
  - intros v r1 H. exact H.
  - intros r1 H. open_steps. simpl. destruct (llm _ _ _) as [t w]. exact H.
  - intros q. apply grown_run_query.
  - intros r1 H. open_steps. simpl. destruct (llm _ _ _) as [a w]. exact H.
Qed.

(** X2. Within a question the retrieval state only grows: a round, and
    the loop over any number of rounds, however they end, leave
    [_previous_queries], [_used_queries] and [_context] as they were with
    new entries at the end.  So every later request for queries sees all
    earlier failures and successes of the question. *)
Theorem retrieval_state_only_grows :
  forall (fuel : nat) (r : Run),
    grown r (run retrieval_round r)
    /\ grown r (run (retrieval_loop fuel) r).
Proof.
  intros fuel r. split.
  - apply grown_retrieval_round, grown_refl.
  - apply preserves_retrieval_loop;
      [apply grown_retrieval_round | apply grown_refl].
Qed.

(** *** What a question prints *)

(** The terminal of a question shows one notice for each rejected call
    of the question, and nothing else. *)
Lemma reachable_notices user_q r0 r :
  reachable user_q r0 r ->
  exists calls,
    graph_log r = graph_log r0 ++ calls
    /\ terminal r
       = terminal r0
           ++ repeat (Printed notice)
                     (List.length (filter is_rejected calls)).
Proof.
  induction 1 as [|r Hr IH|r v Hr IH|r Hr IH|r q Hr IH].
  - exists []. simpl. rewrite !app_nil_r. split; reflexivity.
  - open_steps. destruct (llm _ _ _) as [a w]. exact IH.
  - exact IH.
  - open_steps. destruct (llm _ _ _) as [a w]. exact IH.
  - destruct IH as (calls & Hlog & Hterm).
    destruct (run_query_pass q r) as (o & b & t & Heq & Hpass).
    unfold run. rewrite Heq. simpl.
    exists (calls ++ [mkGraphCall q (fst (graph_query (world r) q))]).
    rewrite Hlog, Hterm, <- !app_assoc, filter_app, length_app, repeat_app.
    split; [reflexivity|]. do 2 f_equal.
    unfold is_rejected. simpl.
    inversion Hpass as [| | |e He| |]; subst; simpl; try reflexivity.
    destruct e; try reflexivity. contradiction.
Qed.

(** X3. What a question prints: one fixed notice for each call to the
    graph that came back with a Cypher syntax error, then, when [ask]
    comes to its end, the line of the answer.  No text of a query, of an
    exception or of the rows reaches the terminal. *)
Theorem question_prints_notices_then_answer :
  forall (fuel : nat) (user_q : string) (r : Run),
    let r' := run (ask fuel user_q) r in
    let rejected :=
      List.length
        (filter is_rejected (calls_since (List.length (graph_log r)) r')) in
    (fst (ask fuel user_q r) = Returned tt ->
     terminal r'
     = terminal r ++ repeat (Printed notice) rejected
         ++ [Printed ("Bot: " ++ answer (self r') ++ nl)])
    /\ (fst (ask fuel user_q r) <> Returned tt ->
        terminal r' = terminal r ++ repeat (Printed notice) rejected).
Proof.
  intros fuel user_q r.
  destruct (reachable_notices (reachable_resolve fuel user_q r))
    as (calls & Hlog & Hterm).
  destruct (ask_run fuel user_q r)
    as [(Hret & _ & Hrun)|(Hne & _ & Hrun)]; cbv zeta; rewrite Hrun;
    split; try contradiction; intros _.
  - rewrite (@calls_since_app _ r (conclude (run (resolve fuel user_q) r))
                              calls Hlog).
    unfold conclude. simpl. rewrite Hterm, <- app_assoc. reflexivity.
  - rewrite (@calls_since_app _ r _ calls Hlog). exact Hterm.
Qed.

(** *** What the model is asked *)

Lemma reachable_requests user_q r0 r :
  reachable user_q r0 r ->
  exists calls,
    llm_log r = llm_log r0 ++ calls
    /\ Forall (fun c => answer_request user_q (chat_history (self r0)) c
                        \/ query_request c) calls.
Proof.
  induction 1 as [|r Hr IH|r v Hr IH|r Hr IH|r q Hr IH].
  - exists []. simpl. rewrite app_nil_r. split; constructor.
  - destruct IH as (calls & Hlog & Hall).
    destruct (reachable_history Hr) as [Hh Hq].
    open_steps. simpl. destruct (llm _ _ _) as [a w]. simpl.
    eexists. rewrite Hlog, <- app_assoc. split; [reflexivity|].
    apply Forall_app. split; [exact Hall|]. constructor; [|constructor].
    left. split; [reflexivity|]. simpl. rewrite Hh, Hq. eexists. reflexivity.
  - exact IH.
  - destruct IH as (calls & Hlog & Hall).
    open_steps. simpl. destruct (llm _ _ _) as [a w]. simpl.
    eexists. rewrite Hlog, <- app_assoc. split; [reflexivity|].
    apply Forall_app. split; [exact Hall|]. constructor; [|constructor].
    right. reflexivity.
  - destruct (run_query_frame q r) as (_ & Hl & _). rewrite Hl. exact IH.
Qed.

Lemma retrieval_loop_llm_grows fuel r :
  exists more, llm_log (run (retrieval_loop fuel) r) = llm_log r ++ more.
Proof.
  apply (@preserves_retrieval_loop _
           (fun r1 => exists more, llm_log r1 = llm_log r ++ more)).
  - apply preserves_retrieval_round.
    + intros v r1 H. exact H.
    + intros r1 [m H]. open_steps. simpl.
      destruct (llm _ _ _) as [t w]. simpl.
      eexists. rewrite H, <- app_assoc. reflexivity.
    + intros q r1 [m H].
      destruct (run_query_frame q r1) as (_ & Hl & _).
      exists m. congruence.
    + intros r1 [m H]. open_steps. simpl.
      destruct (llm _ _ _) as [t w]. simpl.
      eexists. rewrite H, <- app_assoc. reflexivity.
  - exists []. rewrite app_nil_r. reflexivity.
Qed.

(** X4. What the model is asked during a question: first for an answer
    to the question as typed, with no context and the history as it stood;
    after that only for queries, or for an answer to the same question
    under the same history.  The history does not change, and no other
    system prompt is used, while the question is open. *)
Theorem question_asks_for_answers_and_queries :
  forall (fuel : nat) (user_q : string) (r : Run),
  exists later,
    llm_log (run (ask fuel user_q) r)
    = llm_log r
        ++ mkLlmCall "You are movie chatbot"
                     (base_template user_q [] (chat_history (self r)))
                     (first_answer user_q r)
           :: later
    /\ Forall (fun c => answer_request user_q (chat_history (self r)) c
                        \/ query_request c) later.
Proof.
  intros fuel user_q r.
  assert (Hres : exists later,
             llm_log (run (resolve fuel user_q) r)
             = llm_log r
                 ++ mkLlmCall "You are movie chatbot"
                      (base_template user_q [] (chat_history (self r)))
                      (first_answer user_q r)
                    :: later
             /\ Forall (fun c =>
                          answer_request user_q (chat_history (self r)) c
                          \/ query_request c) later).
  { unfold run. rewrite resolve_eq. fold (opened user_q r).
    destruct (opened_frame user_q r) as (_ & _ & _ & Hh & _ & Hlog).
    assert (Hreach : reachable user_q r (opened user_q r))
      by (apply reach_answer, reach_reset).
    assert (Hloop : reachable user_q r
                      (run (retrieval_loop fuel) (opened user_q r)))
      by (apply preserves_retrieval_loop;
          [apply reachable_retrieval_round | exact Hreach]).
    destruct (retrieval_loop_llm_grows fuel (opened user_q r))
      as [more Hmore].
    destruct (reachable_requests Hloop) as (calls & Hcalls & Hall).
    exists more. unfold run in *. rewrite Hmore, Hlog, <- app_assoc.
    split; [reflexivity|].
    rewrite Hmore, Hlog, <- app_assoc in Hcalls.
    apply app_inv_head in Hcalls. subst calls.
    inversion Hall; assumption. }
  destruct (ask_run fuel user_q r) as [(_ & _ & ->)|(_ & _ & ->)];
    exact Hres.
Qed.

(** *** Edge cases of a round *)

(** X5. A generated text that parses to something empty (the list [[]],
    the empty string, an empty tuple, dict or set) makes a round without a
    call to the graph: the round returns, the three lists of the retrieval
    state are as before, and the model has been asked twice, for queries
    and for a new answer. *)
Theorem empty_candidates_make_an_idle_round :
  forall (r : Run) (v : PyVal),
    literal_eval (generated_text r) = inl v ->
    py_iter v = inl [] ->
    fst (retrieval_round r) = Returned tt
    /\ graph_log (run retrieval_round r) = graph_log r
    /\ terminal (run retrieval_round r) = terminal r
    /\ context (self (run retrieval_round r)) = context (self r)
    /\ previous_queries (self (run retrieval_round r))
       = previous_queries (self r)
    /\ used_queries (self (run retrieval_round r)) = used_queries (self r)
    /\ List.length (llm_log (run retrieval_round r))
       = 2 + List.length (llm_log r).
Proof.
  intros r v Hlit Hiter.
  unfold run. rewrite retrieval_round_eq. unfold candidates_of.
  rewrite Hlit, Hiter. unfold bind. simpl.
  destruct (asked_logs r) as (Hg & Hl & _).
  destruct (asked_frame r) as (Ht & _ & _ & Hc & Hp & Hu).
  destruct (generate_answer_logs (asked r)) as (Hret & Hg' & Hl' & _).
  unfold run in *.
  assert (Hkeep : terminal (snd (generate_answer (asked r)))
                  = terminal (asked r)
                  /\ context (self (snd (generate_answer (asked r))))
                     = context (self (asked r))
                  /\ previous_queries (self (snd (generate_answer (asked r))))
                     = previous_queries (self (asked r))
                  /\ used_queries (self (snd (generate_answer (asked r))))
                     = used_queries (self (asked r))).
  { generalize (asked r). intros r1. unfold generate_answer,
      generate_chat_anserw, bind, get_self, update. simpl.
    destruct (llm _ _ _) as [a w]. repeat split. }
  destruct Hkeep as (Kt & Kc & Kp & Ku).
  repeat split; congruence.
Qed.

(** X6. A generated text that [literal_eval] rejects with anything but a
    syntax error, or that parses to a value a [for] loop cannot run over
    (a number, a boolean, [None]), ends the question with that exception
    in its first round: the graph is not called, nothing is printed and
    the history is as before. *)
Theorem unusable_reply_ends_the_question :
  forall (fuel : nat) (user_q : string) (r : Run) (e : PyExn),
    Str.contains "NO_CONTEXT" (first_answer user_q r) = true ->
    (literal_eval (generated_text (opened user_q r)) = inr e
     /\ e <> SyntaxError)
    \/ (exists v,
           literal_eval (generated_text (opened user_q r)) = inl v
           /\ py_iter v = inr e) ->
    fst (ask (S fuel) user_q r) = Raised e
    /\ graph_log (run (ask (S fuel) user_q) r) = graph_log r
    /\ terminal (run (ask (S fuel) user_q) r) = terminal r
    /\ chat_history (self (run (ask (S fuel) user_q) r))
       = chat_history (self r).
Proof.
  intros fuel user_q r e Hmark Hbad.
  destruct (opened_frame user_q r) as (Hg & Ht & _ & Hh & Ha & _).
  assert (Hcand : candidates_of (opened user_q r) = inr e).
  { unfold candidates_of. destruct Hbad as [[Hlit Hne]|[v [Hlit Hiter]]].
    - rewrite Hlit. destruct (PyExn_eqb e SyntaxError) eqn:He; [|reflexivity].
      apply PyExn_eqb_eq in He. contradiction.
    - rewrite Hlit. exact Hiter. }
  assert (Hask : ask (S fuel) user_q r = (Raised e, asked (opened user_q r))).
  { rewrite ask_resolve, resolve_eq. fold (opened user_q r).
    simpl. unfold NO_CONTEXT. rewrite Ha, Hmark.
    unfold bind. rewrite retrieval_round_eq, Hcand. reflexivity. }
  unfold run. rewrite Hask. simpl.
  destruct (asked_logs (opened user_q r)) as (Hg' & _).
  destruct (asked_frame (opened user_q r)) as (Ht' & _ & Hh' & _).
  repeat split; congruence.
Qed.

(** X7. An exception of the graph that is no [CypherSyntaxError] (a lost
    connection, a constraint error) is not caught by the pass: the pass
    raises it, prints nothing and files the query in neither list. *)
Theorem graph_error_is_not_caught :
  forall (q : PyVal) (r : Run) (e : PyExn),
    fst (graph_query (world r) q) = inr e ->
    e <> CypherSyntaxError ->
    fst (run_query q r) = Raised e
    /\ self (run (run_query q) r) = self r
    /\ terminal (run (run_query q) r) = terminal r.
Proof.
  intros q r e Hres Hne.
  destruct (run_query_pass q r) as (o & b & t & Heq & Hpass).
  unfold run. rewrite Heq. simpl. rewrite Hres in Hpass.
  inversion Hpass; subst; try contradiction.
  rewrite app_nil_r. repeat split.
Qed.

(** X8. A candidate that is not a string (an element of a parsed list
    such as [[1, 2]]) is sent to the graph like any other.  It is never
    filed in [_previous_queries]: either rows with data came back and the
    candidate is filed as used with them, or the pass ends in an
    exception and files nothing. *)
Theorem non_string_candidate_is_never_annotated :
  forall (q : PyVal) (r : Run),
    is_str q = false ->
    submitted_last q (run (run_query q) r)
    /\ previous_queries (self (run (run_query q) r))
       = previous_queries (self r)
    /\ ((exists rows,
            fst (graph_query (world r) q) = inl rows
            /\ Str.strip rows <> "[]"
            /\ fst (run_query q r) = Returned tt
            /\ self (run (run_query q) r) = append_used rows q (self r))
        \/ ((exists e, fst (run_query q r) = Raised e)
            /\ self (run (run_query q) r) = self r)).
Proof.
  intros q r Hq.
  destruct (run_query_pass q r) as (o & b & t & Heq & Hpass).
  unfold run. rewrite Heq. unfold submitted_last. simpl.
  split; [eexists _, _; split; reflexivity|].
  inversion Hpass as [s Hs|s rows Hs| | | |]; subst; simpl;
    try discriminate; (split; [reflexivity|]).
  - left. eexists. repeat split; eauto.
  - right. split; [eexists|]; reflexivity.
  - right. split; [eexists|]; reflexivity.
  - right. split; [eexists|]; reflexivity.
Qed.

End QuestionFacts.


(** ** The session *)

Section SessionFacts.

Context {E : Outside}.

(** One pass through the [while True] of [chat]. *)
Lemma chat_loop_step (turns fuel : nat) (r : Run) :
  chat_loop (S turns) fuel r
  = match stdin r with
    | [] => (Raised EOFError, after_input r [])
    | user_q :: rest =>
        if is_quit user_q then (Returned tt, after_quit (after_input r rest))
        else if is_restart user_q
        then chat_loop turns fuel (after_restart (after_input r rest))
        else match ask fuel user_q (after_input r rest) with
             | (Returned _, r') => chat_loop turns fuel r'
             | (Raised e, r') => (Raised e, r')
             | (Starved, r') => (Starved, r')
             end
    end.
Proof.
  simpl. unfold bind at 1. unfold input, is_quit, is_restart.
  destruct (stdin r) as [|user_q rest]; [reflexivity|].
  destruct (String.eqb (Str.lower user_q) "exit"
            || String.eqb (Str.lower user_q) "quit"); [reflexivity|].
  destruct (String.eqb (Str.lower user_q) "restart"); reflexivity.
Qed.

Lemma ask_frame (fuel : nat) (user_q : string) (r : Run) :
  stdin (run (ask fuel user_q) r) = stdin r
  /\ (chat_history (self (run (ask fuel user_q) r)) = chat_history (self r)
      \/ exists ctx a,
           chat_history (self (run (ask fuel user_q) r))
           = chat_history (self r) ++ [UserTurn user_q ctx; AssistantTurn a]).
Proof.
  pose proof (reachable_resolve fuel user_q r) as Hreach.
  pose proof (reachable_frame Hreach) as Hin.
  destruct (reachable_history Hreach) as [Hh Hq].
  destruct (ask_run fuel user_q r) as [(_ & _ & ->)|(_ & _ & ->)].
  - split; [exact Hin|]. right. unfold conclude. simpl.
    rewrite Hh, Hq. eexists _, _. reflexivity.
  - split; [exact Hin|]. left. exact Hh.
Qed.

Lemma chat_eq (fuel : nat) (r : Run) :
  chat fuel r = chat_loop (S (List.length (stdin r))) fuel (after_banner r).
Proof. reflexivity. Qed.

(** *** Leaving the session *)

Lemma chat_loop_returns (turns fuel : nat) :
  forall r,
    fst (chat_loop turns fuel r) = Returned tt ->
    exists before word after,
      stdin r = before ++ word :: after
      /\ Forall (fun l => is_quit l = false) before
      /\ is_quit word = true
      /\ stdin (run (chat_loop turns fuel) r) = after
      /\ self (run (chat_loop turns fuel) r) = init.
Proof.
  induction turns as [|turns IH]; intros r; [discriminate|].
  unfold run. rewrite chat_loop_step.
  destruct (stdin r) as [|user_q rest] eqn:Hin; [discriminate|].
  destruct (is_quit user_q) eqn:Hquit.
  - intros _. exists [], user_q, rest. repeat split; auto.
  - assert (Hnext : forall r1,
               stdin r1 = rest ->
               fst (chat_loop turns fuel r1) = Returned tt ->
               exists before word after,
                 user_q :: rest = before ++ word :: after
                 /\ Forall (fun l => is_quit l = false) before
                 /\ is_quit word = true
                 /\ stdin (snd (chat_loop turns fuel r1)) = after
                 /\ self (snd (chat_loop turns fuel r1)) = init).
    { intros r1 Hr1 Hret.
      destruct (IH r1 Hret) as (before & word & after & Hs & Hb & Hw & Ha & Hi).
      exists (user_q :: before), word, after.
      rewrite Hr1 in Hs. rewrite Hs. repeat split; auto. }
    destruct (is_restart user_q).
    + apply Hnext. reflexivity.
    + destruct (ask_frame fuel user_q (after_input r rest)) as [Hstd _].
      unfold run in Hstd.
      destruct (ask fuel user_q (after_input r rest)) as [[[]|e|] r2];
        try discriminate.
      apply Hnext. exact Hstd.
Qed.

(** X9. [chat] returns only at a line that reads [exit] or [quit] in any
    mix of capitals and small letters: the first such line of the input.
    The lines after it stay unread, and every state variable, the history
    with them, is back at its initial value. *)
Theorem chat_returns_only_at_quit :
  forall (fuel : nat) (r : Run),
    fst (chat fuel r) = Returned tt ->
    exists before word after,
      stdin r = before ++ word :: after
      /\ Forall (fun l => is_quit l = false) before
      /\ is_quit word = true
      /\ stdin (run (chat fuel) r) = after
      /\ self (run (chat fuel) r) = init.
Proof.
  intros fuel r. unfold run. rewrite chat_eq. intros Hret.
  apply (chat_loop_returns _ fuel (after_banner r) Hret).
Qed.

(** *** The history of a session *)

Lemma exchanges_app_aux (h2 : list Turn) :
  forall h,
    (exchanges h = true -> exchanges (h ++ h2) = exchanges h2)
    /\ (forall t, exchanges (t :: h) = true ->
                  exchanges ((t :: h) ++ h2) = exchanges h2).
Proof.
  induction h as [|x h [IH1 IH2]]; split.
  - reflexivity.
  - intros [q c|a]; discriminate.
  - apply IH2.
  - intros [q c|a] H; [|discriminate].
    destruct x as [q' c'|a']; [discriminate|].
    simpl in *. apply IH1. exact H.
Qed.

Lemma exchanges_snoc h user_q ctx a :
  exchanges h = true ->
  exchanges (h ++ [UserTurn user_q ctx; AssistantTurn a]) = true.
Proof.
  intros H. rewrite (proj1 (exchanges_app_aux _ h) H). reflexivity.
Qed.

Lemma ask_exchanges fuel user_q :
  preserves (fun r => exchanges (chat_history (self r)) = true)
            (ask fuel user_q).
Proof.
  intros r H.
  destruct (ask_frame fuel user_q r) as [_ [Hsame|(ctx & a & Hmore)]].
  - rewrite Hsame. exact H.
  - rewrite Hmore. apply exchanges_snoc. exact H.
Qed.

Lemma chat_loop_exchanges turns fuel :
  preserves (fun r => exchanges (chat_history (self r)) = true)
            (chat_loop turns fuel).
Proof.
  induction turns as [|turns IH]; intros r H; [exact H|].
  unfold run. rewrite chat_loop_step.
  destruct (stdin r) as [|user_q rest]; [exact H|].
  destruct (is_quit user_q); [reflexivity|].
  destruct (is_restart user_q); [apply IH; reflexivity|].
  pose proof (@ask_exchanges fuel user_q) as Hask.
  specialize (Hask (after_input r rest) H). unfold run in Hask.
  destruct (ask fuel user_q (after_input r rest)) as [[[]|e|] r2];
    try exact Hask.
  apply IH. exact Hask.
Qed.

(** X10. The history is always a sequence of whole exchanges, a user
    entry followed by an assistant entry: a question keeps it so whether
    it ends or raises, and so does a whole session, wherever it stops.  No
    user entry is ever saved without its answer. *)
Theorem history_is_made_of_exchanges :
  forall (fuel : nat) (r : Run),
    exchanges (chat_history (self r)) = true ->
    (forall user_q,
        exchanges (chat_history (self (run (ask fuel user_q) r))) = true)
    /\ exchanges (chat_history (self (run (chat fuel) r))) = true.
Proof.
  intros fuel r H. split.
  - intros user_q. apply ask_exchanges. exact H.
  - unfold run. rewrite chat_eq.
    apply chat_loop_exchanges. exact H.
Qed.

(** *** The end of the input *)

Section NeverMissing.

(** No answer of the model reports missing context. *)
Hypothesis never_marker :
  forall w p,
    Str.contains "NO_CONTEXT" (fst (llm w "You are movie chatbot" p)) = false.

Lemma ask_at_once fuel user_q r :
  ask fuel user_q r = (Returned tt, conclude (opened user_q r)).
Proof.
  rewrite ask_resolve, resolve_eq. fold (opened user_q r).
  destruct (opened_frame user_q r) as (_ & _ & _ & _ & Ha & _).
  assert (Hc : Str.contains NO_CONTEXT (answer (self (opened user_q r)))
               = false).
  { rewrite Ha. unfold first_answer. apply never_marker. }
  destruct fuel; simpl; rewrite Hc; reflexivity.
Qed.

Lemma chat_loop_runs_out (turns fuel : nat) :
  forall r,
    List.length (stdin r) < turns ->
    Forall (fun l => is_quit l = false) (stdin r) ->
    fst (chat_loop turns fuel r) = Raised EOFError
    /\ stdin (run (chat_loop turns fuel) r) = []
    /\ graph_log (run (chat_loop turns fuel) r) = graph_log r
    /\ List.length (llm_log (run (chat_loop turns fuel) r))
       = List.length (llm_log r)
         + List.length (question_lines (stdin r)).
Proof.
  induction turns as [|turns IH]; intros r Hlen Hall; [lia|].
  unfold run. rewrite chat_loop_step.
  destruct (stdin r) as [|user_q rest] eqn:Hin.
  - simpl. repeat split. lia.
  - inversion Hall as [|? ? Hq Hrest]; subst. rewrite Hq.
    simpl in Hlen. unfold question_lines. simpl filter.
    destruct (is_restart user_q); simpl negb; cbv iota.
    + destruct (IH (after_restart (after_input r rest)))
        as (Hr & Hs & Hg & Hl); [simpl; lia | exact Hrest |].
      unfold run in *. repeat split; assumption.
    + rewrite ask_at_once.
      destruct (opened_frame user_q (after_input r rest))
        as (Og & _ & Os & _ & _ & Ol).
      destruct (IH (conclude (opened user_q (after_input r rest))))
        as (Hr & Hs & Hg & Hl).
      * simpl. rewrite Os. simpl. lia.
      * simpl. rewrite Os. exact Hrest.
      * unfold run in *. simpl in Hg, Hl. rewrite Os in Hl.
        rewrite Og in Hg. rewrite Ol in Hl. rewrite length_app in Hl.
        simpl in *. repeat split; try assumption.
        unfold question_lines in Hl. lia.
Qed.

End NeverMissing.

(** X11. The end of the input is not handled.  With a model that never
    reports missing context, a session whose input holds no [exit] or
    [quit] line reads every line, asks the model once for each line that
    is no [restart], never calls the graph, and then ends in the
    [EOFError] of [input]. *)
Theorem session_without_quit_ends_in_EOFError :
  (forall w p,
      Str.contains "NO_CONTEXT" (fst (llm w "You are movie chatbot" p))
      = false) ->
  forall (fuel : nat) (r : Run),
    Forall (fun l => is_quit l = false) (stdin r) ->
    fst (chat fuel r) = Raised EOFError
    /\ stdin (run (chat fuel) r) = []
    /\ graph_log (run (chat fuel) r) = graph_log r
    /\ List.length (llm_log (run (chat fuel) r))
       = List.length (llm_log r)
         + List.length (question_lines (stdin r)).
Proof.
  intros Hm fuel r Hall. unfold run. rewrite chat_eq.
  apply (chat_loop_runs_out Hm); [simpl; lia | exact Hall].
Qed.

End SessionFacts.

(** ** Rounds, restarts and control words *)

Section MoreSessionFacts.

Context {E : Outside}.

Lemma run_queries_llm_log qs :
  forall r, llm_log (run (run_queries qs) r) = llm_log r
            /\ question (self (run (run_queries qs) r)) = question (self r)
            /\ chat_history (self (run (run_queries qs) r))
               = chat_history (self r).
Proof.
  intros r.
  apply (preserves_run_queries
           (P := fun r1 => llm_log r1 = llm_log r
                           /\ question (self r1) = question (self r)
                           /\ chat_history (self r1) = chat_history (self r)));
    [|repeat split].
  intros q r1 (Hl & Hq & Hh).
  destruct (run_query_frame q r1) as (_ & Hl' & Hh' & Hq' & _).
  repeat split; congruence.
Qed.

(** X15. A round that returns has asked the model exactly twice.  First
    for queries, with the follow-up of the answer that opened the round
    and the failed and used queries recorded before the round; then for
    an answer to the unchanged question, with the context as the round
    left it, the rows found in this round included. *)
Theorem round_asks_the_model_twice :
  forall r : Run,
    fst (retrieval_round r) = Returned tt ->
    llm_log (run retrieval_round r)
    = llm_log r
        ++ [mkLlmCall "You are an expert Neo4j Cypher generator."
                      (cypher_prompt_template
                         (followup_of (answer (self r)))
                         (previous_queries (self r))
                         (used_queries (self r)))
                      (generated_text r);
            mkLlmCall "You are movie chatbot"
                      (base_template
                         (question (self r))
                         (context (self (run retrieval_round r)))
                         (chat_history (self r)))
                      (answer (self (run retrieval_round r)))].
Proof.
  intros r. unfold run. rewrite retrieval_round_eq.
  destruct (candidates_of r) as [qs|e]; [|discriminate].
  destruct (run_queries_llm_log qs (asked r)) as (Hl & Hq & Hh).
  unfold bind, run in *.
  destruct (run_queries qs (asked r)) as [[[]|e|] r3]; try discriminate.
  intros _. simpl in Hl, Hq, Hh.
  assert (Hasked : llm_log (asked r)
                   = llm_log r
                       ++ [mkLlmCall
                             "You are an expert Neo4j Cypher generator."
                             (cypher_prompt_template
                                (followup_of (answer (self r)))
                                (previous_queries (self r))
                                (used_queries (self r)))
                             (generated_text r)]
                   /\ question (self (asked r)) = question (self r)).
  { unfold asked, generated_text, run, generate_cypher_query,
      generate_chat_anserw, bind, get_self, update. simpl.
    destruct (llm _ _ _) as [t w]. split; reflexivity. }
  destruct Hasked as [Ha Hqa].
  destruct (asked_frame r) as (_ & _ & Hha & _).
  unfold generate_answer, generate_chat_anserw, bind, get_self, update.
  simpl. destruct (llm _ _ _) as [a w]. simpl.
  rewrite Hl, Ha, Hq, Hqa, Hh, Hha, <- app_assoc. reflexivity.
Qed.

Lemma ask_first_request fuel user_q r :
  exists later,
    llm_log (run (ask fuel user_q) r)
    = llm_log r
        ++ mkLlmCall "You are movie chatbot"
                     (base_template user_q [] (chat_history (self r)))
                     (first_answer user_q r)
           :: later.
Proof.
  assert (Hres : exists later,
             llm_log (run (resolve fuel user_q) r)
             = llm_log r
                 ++ mkLlmCall "You are movie chatbot"
                      (base_template user_q [] (chat_history (self r)))
                      (first_answer user_q r)
                    :: later).
  { unfold run. rewrite resolve_eq. fold (opened user_q r).
    destruct (opened_frame user_q r) as (_ & _ & _ & _ & _ & Hlog).
    destruct (retrieval_loop_llm_grows fuel (opened user_q r))
      as [more Hmore].
    exists more. unfold run in Hmore.
    rewrite Hmore, Hlog, <- app_assoc. reflexivity. }
  destruct (ask_run fuel user_q r) as [(_ & _ & ->)|(_ & _ & ->)];
    exact Hres.
Qed.

Lemma chat_loop_llm_grows turns fuel :
  forall r,
  exists more, llm_log (run (chat_loop turns fuel) r) = llm_log r ++ more.
Proof.
  induction turns as [|turns IH]; intros r.
  - exists []. rewrite app_nil_r. reflexivity.
  - unfold run. rewrite chat_loop_step.
    destruct (stdin r) as [|user_q rest].
    + exists []. rewrite app_nil_r. reflexivity.
    + destruct (is_quit user_q).
      * exists []. rewrite app_nil_r. reflexivity.
      * destruct (is_restart user_q).
        -- apply (IH (after_restart (after_input r rest))).
        -- destruct (ask_first_request fuel user_q (after_input r rest))
             as [later Hlog].
           unfold run in Hlog.
           destruct (ask fuel user_q (after_input r rest))
             as [[[]|e|] r2]; simpl in Hlog;
             try (eexists; exact Hlog).
           destruct (IH r2) as [more Hmore]. unfold run in Hmore.
           eexists. rewrite Hmore, Hlog, <- app_assoc. reflexivity.
Qed.

Lemma restart_is_no_quit (line : string) :
  is_restart line = true -> is_quit line = false.
Proof.
  unfold is_restart, is_quit. intros H.
  apply String.eqb_eq in H. rewrite H. reflexivity.
Qed.

(** X16. A [restart] line forgets the conversation for the model too:
    the question typed after it is put to the model with an empty history
    and no context, whatever was said before. *)
Theorem restart_line_forgets_the_history :
  forall (fuel : nat) (r : Run) (line user_q : string) (rest : list string),
    stdin r = line :: user_q :: rest ->
    is_restart line = true ->
    is_quit user_q = false ->
    is_restart user_q = false ->
    exists a later,
      llm_log (run (chat fuel) r)
      = llm_log r
          ++ mkLlmCall "You are movie chatbot"
                       (base_template user_q [] []) a
             :: later.
Proof.
  intros fuel r line user_q rest Hin Hre Hq Hr.
  unfold run. rewrite chat_eq, Hin. cbn [List.length].
  rewrite chat_loop_step. cbn [stdin after_banner]. rewrite Hin.
  rewrite (restart_is_no_quit line Hre), Hre.
  rewrite chat_loop_step. cbn [stdin after_restart after_input].
  rewrite Hq, Hr.
  set (r1 := after_input
               (after_restart (after_input (after_banner r)
                                           (user_q :: rest))) rest).
  destruct (ask_first_request fuel user_q r1) as [later Hlog].
  unfold run in Hlog. change (llm_log r1) with (llm_log r) in Hlog.
  change (chat_history (self r1)) with (@nil Turn) in Hlog.
  destruct (ask fuel user_q r1) as [[[]|e|] r2]; simpl in Hlog;
    try (eexists _, _; exact Hlog).
  destruct (chat_loop_llm_grows (S (List.length rest)) fuel r2)
    as [more Hmore].
  unfold run in Hmore. eexists _, _.
  rewrite Hmore, Hlog, <- app_assoc. reflexivity.
Qed.

Lemma lower_char_twice (c : ascii) :
  Str.lower_char (Str.lower_char c) = Str.lower_char c.
Proof. destruct c as [[] [] [] [] [] [] [] []]; reflexivity. Qed.

Lemma lower_twice (s : string) : Str.lower (Str.lower s) = Str.lower s.
Proof.
  induction s as [|c s IH]; simpl; [|rewrite IH, lower_char_twice];
    reflexivity.
Qed.

Lemma lower_length (s : string) :
  String.length (Str.lower s) = String.length s.
Proof. induction s as [|c s IH]; simpl; [|rewrite IH]; reflexivity. Qed.

(** X17. The control words are matched on the whole line, ignoring case
    and nothing else: writing a line in small letters does not change
    whether it ends or restarts the session; a line that ends it has four
    characters and one that restarts it seven, so a control word with a
    blank before or after it is put to the model as a question; and no
    line does both. *)
Theorem control_words_ignore_case_only :
  forall line : string,
    is_quit (Str.lower line) = is_quit line
    /\ is_restart (Str.lower line) = is_restart line
    /\ (is_quit line = true -> String.length line = 4)
    /\ (is_restart line = true -> String.length line = 7)
    /\ (is_restart line = true -> is_quit line = false).
Proof.
  intros line. unfold is_quit, is_restart. rewrite lower_twice.
  repeat split.
  - intros H. rewrite <- lower_length. apply orb_true_iff in H.
    destruct H as [H|H]; apply String.eqb_eq in H; rewrite H; reflexivity.
  - intros H. rewrite <- lower_length.
    apply String.eqb_eq in H. rewrite H. reflexivity.
  - intros H. apply String.eqb_eq in H. rewrite H. reflexivity.
Qed.

End MoreSessionFacts.

(** ** The construction *)

Section ConstructionFacts.

Variable V : Type.

Lemma has_key_lookup (d : Dict V) (k : string) :
  has_key d k = false <-> lookup d k = None.
Proof.
  unfold has_key. induction d as [|[k' v] d IH]; simpl.
  - split; reflexivity.
  - destruct (String.eqb k k'); simpl; [split; discriminate | exact IH].
Qed.

Lemma has_key_found (d : Dict V) (k : string) (v : V) :
  lookup d k = Some v -> has_key d k = true.
Proof.
  intros H. destruct (has_key d k) eqn:Hk; [reflexivity|].
  apply has_key_lookup in Hk. congruence.
Qed.

(** X12. With the client and the prompts in place, [__init__] raises
    [KeyError] when one of [url], [username], [password], [database] is
    no key of [db_connection], and then constructs no [Neo4jGraph].  When
    the four keys are there it constructs exactly one, with the values
    under them, whatever other keys the dict holds; the object is new, or
    the exception of the connection is raised. *)
Theorem construct_checks_the_four_keys :
  forall (S : Services V) (db_connection : Dict V),
    new_client S = inl tt ->
    load_prompts S = inl tt ->
    ((exists k, In k required_keys /\ lookup db_connection k = None) ->
     construct S db_connection = (inr (OtherError "KeyError"), []))
    /\ (forall url username password database,
          lookup db_connection "url" = Some url ->
          lookup db_connection "username" = Some username ->
          lookup db_connection "password" = Some password ->
          lookup db_connection "database" = Some database ->
          construct S db_connection
          = (match connect S url username password database with
             | inl _ => inl init
             | inr e => inr e
             end,
             [(url, username, password, database)])).
Proof.
  intros S d Hc Hp. unfold construct. rewrite Hc, Hp.
  unfold missing_keys, required_keys. simpl filter. split.
  - intros (k & Hin & Hnone). apply has_key_lookup in Hnone.
    simpl in Hin.
    destruct Hin as [<-|[<-|[<-|[<-|[]]]]]; rewrite Hnone; simpl;
      repeat match goal with
             | |- context [has_key d ?k] => destruct (has_key d k); simpl
             end; reflexivity.
  - intros u n p b Hu Hn Hpw Hb.
    rewrite (has_key_found _ _ Hu), (has_key_found _ _ Hn),
      (has_key_found _ _ Hpw), (has_key_found _ _ Hb).
    simpl. rewrite Hu, Hn, Hpw, Hb. reflexivity.
Qed.

(** X13. The dict [app.py] builds always has the four keys, so from
    [app.py] the [KeyError] of [__init__] cannot occur: whatever
    [os.getenv] returned, [None] for an unset variable included, is passed
    on to [Neo4jGraph]. *)
Theorem app_always_passes_the_key_check :
  forall (S : Services V) (URI USER PASSWORD DB_NAME : V),
    new_client S = inl tt ->
    load_prompts S = inl tt ->
    missing_keys (app_db_connection URI USER PASSWORD DB_NAME) = []
    /\ construct S (app_db_connection URI USER PASSWORD DB_NAME)
       = (match connect S URI USER PASSWORD DB_NAME with
          | inl _ => inl init
          | inr e => inr e
          end,
          [(URI, USER, PASSWORD, DB_NAME)]).
Proof.
  intros S uri user pw db Hc Hp. split; [reflexivity|].
  unfold construct. rewrite Hc, Hp. reflexivity.
Qed.

End ConstructionFacts.

(** ** The follow-up question *)

Section FollowupFacts.

Context {E : Outside}.

Lemma string_of_list_ascii_app (a b : list ascii) :
  string_of_list_ascii (a ++ b)
  = (string_of_list_ascii a ++ string_of_list_ascii b)%string.
Proof. induction a as [|x a IH]; simpl; [|rewrite IH]; reflexivity. Qed.

Lemma append_nil_r (s : string) : (s ++ "")%string = s.
Proof. induction s as [|c s IH]; simpl; [|rewrite IH]; reflexivity. Qed.

Lemma append_assoc (a b c : string) :
  ((a ++ b) ++ c)%string = (a ++ (b ++ c))%string.
Proof. induction a as [|x a IH]; simpl; [|rewrite IH]; reflexivity. Qed.

Lemma contains_empty (sep : string) :
  sep <> "" -> Str.contains sep "" = false.
Proof. destruct sep; [contradiction|reflexivity]. Qed.

Lemma prefix_append_r (p : string) :
  forall sep w, prefix sep p = true -> prefix sep (p ++ w) = true.
Proof.
  induction p as [|b p IH]; intros sep w H.
  - destruct sep; [|discriminate]. destruct w; reflexivity.
  - destruct sep as [|a sep]; [reflexivity|]. simpl in *.
    destruct (ascii_dec a b); [apply IH; exact H | discriminate].
Qed.

Lemma contains_append_r (sep : string) (p w : string) :
  sep <> "" -> Str.contains sep p = true -> Str.contains sep (p ++ w) = true.
Proof.
  intros Hsep. induction p as [|c p IH]; intros H.
  - rewrite contains_empty in H by exact Hsep. discriminate.
  - simpl Str.contains in H. apply orb_true_iff in H. simpl append. simpl Str.contains.
    apply orb_true_iff. destruct H as [H|H].
    + left. apply (prefix_append_r (String c p) sep w H).
    + right. apply IH. exact H.
Qed.

Lemma lstrip_keeps_absence (sep t : string) :
  Str.contains sep t = false -> Str.contains sep (Str.lstrip t) = false.
Proof.
  induction t as [|c t IH]; intros H; [exact H|].
  simpl Str.lstrip. destruct (Str.isspace c); [|exact H].
  apply IH. simpl in H. apply orb_false_iff in H. apply H.
Qed.

Lemma rstrip_is_prefix (t : string) :
  exists w, t = (Str.rstrip t ++ w)%string.
Proof.
  induction t as [|c t [w IH]]; [exists ""; reflexivity|].
  simpl Str.rstrip. destruct (Str.rstrip t) as [|a b].
  - destruct (Str.isspace c).
    + exists (String c t). reflexivity.
    + exists t. reflexivity.
  - exists w. simpl in *. rewrite <- IH. reflexivity.
Qed.

Lemma rstrip_keeps_absence (sep t : string) :
  sep <> "" ->
  Str.contains sep t = false -> Str.contains sep (Str.rstrip t) = false.
Proof.
  intros Hsep H. destruct (rstrip_is_prefix t) as [w Hw].
  destruct (Str.contains sep (Str.rstrip t)) eqn:Hc; [|reflexivity].
  apply (contains_append_r _ w Hsep) in Hc. rewrite <- Hw in Hc. congruence.
Qed.

(** A text none of whose ends starts with [sep] does not contain it. *)
Lemma contains_no_start (sep : string) :
  sep <> "" ->
  forall l,
    (forall a b, l = a ++ b -> b <> [] ->
                 prefix sep (string_of_list_ascii b) = false) ->
    Str.contains sep (string_of_list_ascii l) = false.
Proof.
  intros Hsep. induction l as [|c l IH]; intros H.
  - apply contains_empty. exact Hsep.
  - simpl. apply orb_false_iff. split.
    + apply (H [] (c :: l)); [reflexivity | discriminate].
    + apply IH. intros a b Hl Hb. apply (H (c :: a) b); [|exact Hb].
      rewrite Hl. reflexivity.
Qed.

Lemma split_scan_not_nil sep s :
  forall skip cur, Str.split_scan sep skip cur s <> [].
Proof.
  induction s as [|c s IH]; intros skip cur; cbn [Str.split_scan];
    [discriminate|].
  destruct skip; [|apply IH].
  destruct (prefix sep (String c s)); [discriminate | apply IH].
Qed.

Lemma last_cons_not_nil {A} (x : A) (l : list A) (d : A) :
  l <> [] -> last (x :: l) d = last l d.
Proof. destruct l; [contradiction | reflexivity]. Qed.

(** The scan of [split]: while no end of the piece under construction,
    continued by the rest of the text, starts with [sep], the last piece
    of the result does not contain [sep]. *)
Lemma split_scan_last (sep : string) :
  sep <> "" ->
  forall s skip cur,
    (skip = 0 ->
     forall a b, rev cur = a ++ b -> b <> [] ->
                 prefix sep (string_of_list_ascii b ++ s) = false) ->
    (skip <> 0 -> cur = []) ->
    Str.contains sep (last (Str.split_scan sep skip cur s) "") = false.
Proof.
  intros Hsep. induction s as [|c s IH]; intros skip cur Hfree Hcur.
  - simpl. destruct skip as [|k].
    + apply contains_no_start; [exact Hsep|].
      intros a b Hl Hb. rewrite <- (append_nil_r (string_of_list_ascii b)).
      apply (Hfree eq_refl a b Hl Hb).
    + rewrite (Hcur (Nat.neq_succ_0 k)).
      apply contains_empty. exact Hsep.
  - assert (Hrestart : forall k,
               Str.contains sep (last (Str.split_scan sep k [] s) "")
               = false).
    { intros k. apply IH; [|reflexivity].
      intros _ a b Hl Hb. simpl in Hl.
      destruct a; destruct b; try discriminate. contradiction. }
    cbn [Str.split_scan]. destruct skip as [|k].
    + destruct (prefix sep (String c s)) eqn:Hp.
      * rewrite last_cons_not_nil by apply split_scan_not_nil.
        apply Hrestart.
      * apply IH; [|congruence].
        intros _ a b Hl Hb. simpl rev in Hl.
        destruct (exists_last Hb) as (b' & x & ->).
        rewrite app_assoc in Hl. apply app_inj_tail in Hl.
        destruct Hl as [Hl ->].
        rewrite string_of_list_ascii_app, append_assoc. simpl.
        destruct b' as [|y b'].
        -- exact Hp.
        -- apply (Hfree eq_refl a (y :: b')); [exact Hl|].
           discriminate.
    + rewrite (Hcur (Nat.neq_succ_0 k)). apply Hrestart.
Qed.

(** X14. The follow-up question of lines 150-151, the text after the last
    marker of the answer with the blanks around it removed, never contains
    the marker itself, whatever the answer is and however often the marker
    occurs in it.  So the question the query generation is asked in a
    round is free of the marker. *)
Theorem followup_never_holds_the_marker :
  (forall answer : string,
      Str.contains "NO_CONTEXT" (followup_of answer) = false)
  /\ (forall r : Run,
        rag_question (self (asked r)) = followup_of (answer (self r))
        /\ Str.contains "NO_CONTEXT" (rag_question (self (asked r))) = false).
Proof.
  assert (Hfollow : forall answer,
             Str.contains "NO_CONTEXT" (followup_of answer) = false).
  { intros answer. unfold followup_of, Str.strip, Str.split.
    apply rstrip_keeps_absence; [discriminate|].
    apply lstrip_keeps_absence.
    apply split_scan_last; [discriminate | | congruence].
    intros _ a b Hl Hb. simpl in Hl.
    destruct a; destruct b; try discriminate. contradiction. }
  split; [exact Hfollow|].
  intros r.
  assert (Hrag : rag_question (self (asked r))
                 = followup_of (answer (self r))).
  { unfold asked, run, generate_cypher_query, generate_chat_anserw, bind,
      get_self, update. simpl. destruct (llm _ _ _) as [t w]. reflexivity. }
  split; [exact Hrag|]. rewrite Hrag. apply Hfollow.
Qed.

End FollowupFacts.

(** ** More of the theorems at sample collaborators *)

Import Cases.

(** The Inception question saves its exchange; a question that raises
    saves nothing. *)
Lemma ask_saves_one_exchange_or_nothing_witness :
  (exists calls c,
      llm_log (run (E := scripted) (ask 3 "Who directed Inception?")
                   (fresh inception_script))
      = calls ++ [c]
      /\ system_prompt c = "You are movie chatbot"
      /\ chat_history
           (self (run (E := scripted) (ask 3 "Who directed Inception?")
                      (fresh inception_script)))
         = [UserTurn "Who directed Inception?" [inception_rows];
            AssistantTurn (reply c)])
  /\ chat_history
       (self (run (E := scripted) (ask 3 "q")
                  (fresh ["NO_CONTEXT x"; "UNKNOWN"])))
     = [].
Proof.
  split.
  - apply (proj1 (@ask_saves_one_exchange_or_nothing
                    scripted 3 "Who directed Inception?"
                    (fresh inception_script))).
    vm_compute. reflexivity.
  - apply (proj2 (@ask_saves_one_exchange_or_nothing
                    scripted 3 "q" (fresh ["NO_CONTEXT x"; "UNKNOWN"]))).
    vm_compute. discriminate.
Defined.

(** Two rejected queries, then the answer. *)
Lemma question_prints_notices_then_answer_witness :
  terminal (run (E := scripted) (ask 3 "q")
                (fresh ["NO_CONTEXT x"; "['X', 'X']"; "done"]))
  = [Printed notice; Printed notice; Printed ("Bot: done" ++ nl)]
  /\ terminal (run (E := scripted) (ask 3 "q")
                   (fresh ["NO_CONTEXT x"; "UNKNOWN"]))
     = [].
Proof.
  split.
  - apply (proj1 (@question_prints_notices_then_answer
                    scripted 3 "q"
                    (fresh ["NO_CONTEXT x"; "['X', 'X']"; "done"]))).
    vm_compute. reflexivity.
  - apply (proj2 (@question_prints_notices_then_answer
                    scripted 3 "q" (fresh ["NO_CONTEXT x"; "UNKNOWN"]))).
    vm_compute. discriminate.
Defined.

(** The model answers the request for queries with an empty list. *)
Lemma empty_candidates_make_an_idle_round_witness :
  fst (retrieval_round (E := scripted_more)
         (opened (E := scripted_more) "q"
                 (fresh_more ["NO_CONTEXT x"; "[]"; "done"])))
  = Returned tt
  /\ graph_log
       (run (E := scripted_more) retrieval_round
            (opened (E := scripted_more) "q"
                    (fresh_more ["NO_CONTEXT x"; "[]"; "done"])))
     = [].
Proof.
  destruct (@empty_candidates_make_an_idle_round
              scripted_more
              (opened (E := scripted_more) "q"
                      (fresh_more ["NO_CONTEXT x"; "[]"; "done"]))
              (PyList []))
    as (Hret & Hlog & _).
  - reflexivity.
  - reflexivity.
  - split; [exact Hret | exact Hlog].
Defined.

(** A bare name raises [ValueError], a number [TypeError]. *)
Lemma unusable_reply_ends_the_question_witness :
  fst (ask (E := scripted_more) 1 "q" (fresh_more ["NO_CONTEXT x"; "UNKNOWN"]))
  = Raised ValueError
  /\ fst (ask (E := scripted_more) 1 "q" (fresh_more ["NO_CONTEXT x"; "42"]))
     = Raised TypeError.
Proof.
  split.
  - apply (@unusable_reply_ends_the_question
             scripted_more 0 "q" (fresh_more ["NO_CONTEXT x"; "UNKNOWN"])
             ValueError).
    + reflexivity.
    + left. split; [reflexivity | discriminate].
  - apply (@unusable_reply_ends_the_question
             scripted_more 0 "q" (fresh_more ["NO_CONTEXT x"; "42"])
             TypeError).
    + reflexivity.
    + right. exists (PyInt 42). split; reflexivity.
Defined.

(** The graph has no connection for [DOWN]. *)
Lemma graph_error_is_not_caught_witness :
  fst (run_query (E := scripted_more) (PyStr "DOWN") (fresh_more []))
  = Raised (OtherError "ServiceUnavailable")
  /\ self (run (E := scripted_more) (run_query (PyStr "DOWN"))
               (fresh_more []))
     = init.
Proof.
  destruct (@graph_error_is_not_caught
              scripted_more (PyStr "DOWN") (fresh_more [])
              (OtherError "ServiceUnavailable"))
    as (Hret & Hself & _).
  - reflexivity.
  - discriminate.
  - split; [exact Hret | exact Hself].
Defined.

(** The number 1 as a candidate. *)
Lemma non_string_candidate_is_never_annotated_witness :
  previous_queries
    (self (run (E := scripted) (run_query (PyInt 1)) (fresh [])))
  = [].
Proof.
  apply (@non_string_candidate_is_never_annotated
           scripted (PyInt 1) (fresh [])).
  reflexivity.
Defined.

(** A session that ends at [Quit]. *)
Lemma chat_returns_only_at_quit_witness :
  exists before word after,
    ["Hi"; "ReStart"; "Quit"; "unread"] = before ++ word :: after
    /\ Forall (fun l => is_quit l = false) before
    /\ is_quit word = true
    /\ stdin (run (E := polite) (chat 3)
                  (seated ["Hi"; "ReStart"; "Quit"; "unread"]))
       = after
    /\ self (run (E := polite) (chat 3)
                 (seated ["Hi"; "ReStart"; "Quit"; "unread"]))
       = init.
Proof.
  apply (@chat_returns_only_at_quit
           polite 3 (seated ["Hi"; "ReStart"; "Quit"; "unread"])).
  vm_compute. reflexivity.
Defined.

(** A session that starts with an empty history. *)
Lemma history_is_made_of_exchanges_witness :
  exchanges
    (chat_history
       (self (run (E := scripted) (ask 3 "Who directed Inception?")
                  (fresh inception_script))))
  = true
  /\ exchanges
       (chat_history
          (self (run (E := polite) (chat 3) (seated ["Hi"; "Who?"]))))
     = true.
Proof.
  split.
  - apply (@history_is_made_of_exchanges
             scripted 3 (fresh inception_script)).
    reflexivity.
  - apply (@history_is_made_of_exchanges polite 3 (seated ["Hi"; "Who?"])).
    reflexivity.
Defined.

(** Two questions and a restart, and no more input. *)
Lemma session_without_quit_ends_in_EOFError_witness :
  fst (chat (E := polite) 3 (seated ["Hi"; "restart"; "Who?"]))
  = Raised EOFError
  /\ List.length
       (llm_log (run (E := polite) (chat 3)
                     (seated ["Hi"; "restart"; "Who?"])))
     = 2.
Proof.
  destruct (@session_without_quit_ends_in_EOFError
              polite (fun _ _ => eq_refl) 3
              (seated ["Hi"; "restart"; "Who?"]))
    as (Hret & _ & _ & Hlen).
  - repeat constructor.
  - split; [exact Hret | exact Hlen].
Defined.

(** A question after a restart, after the Inception exchange. *)
Lemma restart_line_forgets_the_history_witness :
  exists a later,
    llm_log (run (E := polite) (chat 3)
                 (mkRun (E := polite)
                        (mkBot [UserTurn "old" []; AssistantTurn "older"]
                               "" "" "" [] [] [])
                        tt ["RESTART"; "Who?"] [] [] []))
    = mkLlmCall "You are movie chatbot"
                (@base_template polite "Who?" [] []) a
      :: later.
Proof.
  apply (@restart_line_forgets_the_history
           polite 3
           (mkRun (E := polite)
                  (mkBot [UserTurn "old" []; AssistantTurn "older"]
                         "" "" "" [] [] [])
                  tt ["RESTART"; "Who?"] [] [] [])
           "RESTART" "Who?" []);
    reflexivity.
Defined.

(** A control word in capitals, and one with a blank after it. *)
Lemma control_words_ignore_case_only_witness :
  String.length "EXIT" = 4
  /\ String.length "Restart" = 7
  /\ is_quit "Restart" = false
  /\ is_quit "exit " = false.
Proof.
  destruct (control_words_ignore_case_only "EXIT") as (_ & _ & Hq & _).
  destruct (control_words_ignore_case_only "Restart")
    as (_ & _ & _ & Hr & Hrq).
  destruct (control_words_ignore_case_only "exit ") as (_ & _ & Hblank & _).
  refine (conj _ (conj _ (conj _ _))).
  - apply Hq. reflexivity.
  - apply Hr. reflexivity.
  - apply Hrq. reflexivity.
  - destruct (is_quit "exit ") eqn:H; [|reflexivity].
    specialize (Hblank eq_refl). discriminate.
Defined.

(** A dict without [password], and one with a key more. *)
Lemma construct_checks_the_four_keys_witness :
  construct services_up incomplete_connection
  = (inr (OtherError "KeyError"), [])
  /\ construct services_up complete_connection
     = (inl init, [(Some "bolt://db", Some "neo4j", None, Some "movies")]).
Proof.
  split.
  - apply (proj1 (@construct_checks_the_four_keys
                    _ services_up incomplete_connection eq_refl eq_refl)).
    exists "password". split; [simpl; auto | reflexivity].
  - apply (proj2 (@construct_checks_the_four_keys
                    _ services_up complete_connection eq_refl eq_refl)
                 (Some "bolt://db") (Some "neo4j") None (Some "movies"));
      reflexivity.
Defined.

(** No environment variable is set. *)
Lemma app_always_passes_the_key_check_witness :
  construct services_up (app_db_connection None None None None)
  = (inl init, [(None, None, None, None)]).
Proof.
  apply (@app_always_passes_the_key_check
           _ services_up None None None None eq_refl eq_refl).
Defined.

(** The round of the Inception question. *)
Lemma round_asks_the_model_twice_witness :
  map system_prompt
      (llm_log (run (E := scripted) retrieval_round
                    (awaiting "Who directed Inception?" inception_script)))
  = ["You are movie chatbot";
     "You are an expert Neo4j Cypher generator.";
     "You are movie chatbot"].
Proof.
  rewrite (@round_asks_the_model_twice
             scripted (awaiting "Who directed Inception?" inception_script)).
  - reflexivity.
  - vm_compute. reflexivity.
Defined.
